(** * Package and module discovery (setuptools/discovery.py)

    A shallow embedding of the finder classes of [setuptools.discovery]
    ([_Finder], [PackageFinder], [PEP420PackageFinder], [ModuleFinder],
    [FlatLayoutPackageFinder], [FlatLayoutModuleFinder]) together with the
    library primitives they call ([fnmatch.fnmatchcase], [os.walk],
    [glob.glob], [os.path.splitext], [str.isidentifier]).

    Conventions of the model.
    - A Python [str] is a [string]; a character is an [ascii], read as the
      code point of the same number (0..255).
    - The file system below the search root is a finite tree [Os.node]; a
      directory carries its entries in listing order ([os.scandir] order).
      Symbolic links are followed by [os.walk(followlinks=True)] and by
      [os.path.isfile], so a link is represented by the node it points to;
      a link cycle has no finite unfolding and is outside the model.
    - Paths are POSIX paths ([os.path.sep] is "/"). *)

From Stdlib Require Import List String Ascii Bool Arith Lia Permutation.
Import ListNotations.
Local Open Scope string_scope.
Local Open Scope list_scope.

(** ** Python [str] operations used by the module *)

Module Str.

(** [c in s] for a one-character [c]. *)
Fixpoint contains (c : ascii) (s : string) : bool :=
  match s with
  | EmptyString => false
  | String a s' => Ascii.eqb a c || contains c s'
  end.

(** [s.replace(a, b)] for one-character [a] and [b]. *)
Fixpoint replace (a b : ascii) (s : string) : string :=
  match s with
  | EmptyString => EmptyString
  | String c s' => String (if Ascii.eqb c a then b else c) (replace a b s')
  end.

(** [s.startswith(p)]. *)
Fixpoint startswith (p s : string) : bool :=
  match p, s with
  | EmptyString, _ => true
  | String a p', String b s' => Ascii.eqb a b && startswith p' s'
  | String _ _, EmptyString => false
  end.

(** [s.endswith(p)]. *)
Fixpoint endswith (p s : string) : bool :=
  String.eqb p s ||
  match s with
  | EmptyString => false
  | String _ s' => endswith p s'
  end.

Definition in_range (lo hi : nat) (c : ascii) : bool :=
  Nat.leb lo (nat_of_ascii c) && Nat.leb (nat_of_ascii c) hi.

(** Code points with the Unicode property XID_Start, plus the underscore
    that Python admits as a first character; restricted to 0..255. *)
Definition is_xid_start (c : ascii) : bool :=
  in_range 65 90 c || in_range 97 122 c || Ascii.eqb c "_"
  || Nat.eqb (nat_of_ascii c) 170 || Nat.eqb (nat_of_ascii c) 181
  || Nat.eqb (nat_of_ascii c) 186
  || in_range 192 214 c || in_range 216 246 c || in_range 248 255 c.

(** Code points with the Unicode property XID_Continue; restricted to
    0..255. *)
Definition is_xid_continue (c : ascii) : bool :=
  is_xid_start c || in_range 48 57 c || Nat.eqb (nat_of_ascii c) 183.

Fixpoint all_xid_continue (s : string) : bool :=
  match s with
  | EmptyString => true
  | String c s' => is_xid_continue c && all_xid_continue s'
  end.

(** [s.isidentifier()]. *)
Definition isidentifier (s : string) : bool :=
  match s with
  | EmptyString => false
  | String c s' => is_xid_start c && all_xid_continue s'
  end.

End Str.

(** ** [fnmatch.fnmatchcase]

    [fnmatch.translate] turns a pattern into a regular expression, one piece
    per pattern character or bracket expression; [fnmatchcase] then asks
    whether the whole name matches it.  The pieces are kept here as tokens,
    and matching is defined on tokens. *)

Module Fnmatch.

(** One member of a bracket expression: a character or a range. *)
Inductive item : Type :=
| ILit (c : ascii)
| IRange (lo hi : ascii).

Inductive token : Type :=
| TStar                                   (* "*"  *)
| TAny                                    (* "?"  *)
| TClass (negate : bool) (items : list item) (* "[...]" and "[!...]" *)
| TLit (c : ascii).                       (* any other character *)

(** Position of the "]" that closes a bracket expression whose text after
    "[" is [s]: the scan of [translate] skips a leading "!" and then a
    leading "]" before it looks for the closing bracket.  The result is
    the text between the brackets and the text after the closing one. *)
Fixpoint until_rbracket (s : string) : option (string * string) :=
  match s with
  | EmptyString => None
  | String c s' =>
      if Ascii.eqb c "]" then Some (EmptyString, s')
      else match until_rbracket s' with
           | Some (stuff, rest) => Some (String c stuff, rest)
           | None => None
           end
  end.

Definition skip_one (c : ascii) (s : string) : string * string :=
  match s with
  | String a s' => if Ascii.eqb a c then (String a EmptyString, s') else (EmptyString, s)
  | EmptyString => (EmptyString, s)
  end.

Definition bracket (s : string) : option (string * string) :=
  let '(bang, s1) := skip_one "!" s in
  let '(rb, s2) := skip_one "]" s1 in
  match until_rbracket s2 with
  | Some (stuff, rest) => Some ((bang ++ rb ++ stuff)%string, rest)
  | None => None
  end.

(** The members of a bracket expression.  [prev] is the last character of
    the chunk being read.  A hyphen that follows it and is not the last
    character of the expression makes a range from [prev] to the next
    character; the character after a range end starts a new chunk, so a
    hyphen there is an ordinary member, as is a hyphen in first or last
    position. *)
Fixpoint items_from (prev : ascii) (s : string) : list item :=
  match s with
  | EmptyString => [ILit prev]
  | String c s' =>
      if Ascii.eqb c "-" then
        match s' with
        | EmptyString => [ILit prev; ILit c]
        | String hi s'' =>
            IRange prev hi ::
            match s'' with
            | EmptyString => []
            | String x s3 => items_from x s3
            end
        end
      else ILit prev :: items_from c s'
  end.

(** A range whose end comes before its start. *)
Definition empty_range (i : item) : bool :=
  match i with
  | ILit _ => false
  | IRange lo hi => Nat.ltb (nat_of_ascii hi) (nat_of_ascii lo)
  end.

Fixpoint drop_empty (items : list item) : list item :=
  match items with
  | [] => []
  | i :: items' => if empty_range i then drop_empty items' else items
  end.

(** The class a bracket expression stands for.  [translate] deletes the
    empty ranges from the text, both ends included, and hands what is left
    to the regular-expression reader, for which a first "!" means
    negation.  An empty range matches nothing wherever it stands, so
    deleting it changes the class only when it uncovers a "!" in first
    position: the class is then negated, and a hyphen that followed that
    "!" as a range sign is read as a member, since it now comes first. *)
Definition class_of (stuff : string) : token :=
  let '(bang, body) := skip_one "!" stuff in
  let items := match body with
               | EmptyString => []
               | String c s => items_from c s
               end in
  if negb (String.eqb bang EmptyString) then TClass true items
  else
    match drop_empty items with
    | ILit c :: rest =>
        if Ascii.eqb c "!" then TClass true rest else TClass false items
    | IRange lo hi :: rest =>
        if Ascii.eqb lo "!" then TClass true (ILit "-" :: ILit hi :: rest)
        else TClass false items
    | [] => TClass false items
    end.

(** [translate]: the main loop over the pattern, with [fuel] bounding the
    number of iterations by the length of the pattern. *)
Fixpoint tokens_fuel (fuel : nat) (pat : string) : list token :=
  match fuel, pat with
  | _, EmptyString => []
  | O, _ => []
  | S fuel', String c pat' =>
      if Ascii.eqb c "*" then TStar :: tokens_fuel fuel' pat'
      else if Ascii.eqb c "?" then TAny :: tokens_fuel fuel' pat'
      else if Ascii.eqb c "[" then
        match bracket pat' with
        | None => TLit c :: tokens_fuel fuel' pat'
        | Some (stuff, rest) => class_of stuff :: tokens_fuel fuel' rest
        end
      else TLit c :: tokens_fuel fuel' pat'
  end.

Definition translate (pat : string) : list token :=
  tokens_fuel (String.length pat) pat.

Definition item_matches (c : ascii) (i : item) : bool :=
  match i with
  | ILit a => Ascii.eqb a c
  | IRange lo hi => Nat.leb (nat_of_ascii lo) (nat_of_ascii c) && Nat.leb (nat_of_ascii c) (nat_of_ascii hi)
  end.

(** Does a one-character piece of the expression accept [c]? *)
Definition single (t : token) (c : ascii) : bool :=
  match t with
  | TStar => false
  | TAny => true
  | TClass negate items => xorb negate (existsb (item_matches c) items)
  | TLit a => Ascii.eqb a c
  end.

(** Whole-string match of the token sequence ([re.match] with the
    trailing "\Z"). *)
Fixpoint matches (toks : list token) (s : string) : bool :=
  match toks with
  | [] => match s with EmptyString => true | String _ _ => false end
  | TStar :: toks' =>
      (fix star (s : string) : bool :=
         matches toks' s ||
         match s with
         | EmptyString => false
         | String _ s' => star s'
         end) s
  | t :: toks' =>
      match s with
      | EmptyString => false
      | String c s' => single t c && matches toks' s'
      end
  end.

Definition fnmatchcase (name pat : string) : bool :=
  matches (translate pat) name.

(** The tokens of a pattern without wildcard characters. *)
Fixpoint lits (p : string) : list token :=
  match p with
  | EmptyString => []
  | String c p' => TLit c :: lits p'
  end.

End Fnmatch.

(** ** The file system: [os.walk], [glob.glob], [os.path] *)

Module Os.

(** What a name in a directory denotes once links are followed: a
    regular file, a directory with its entries, or anything else (device,
    socket, dangling link). *)
#[local] Set Warnings "-register-all".
Inductive node : Type :=
| File
| Special
| Dir (entries : list (string * node)).

Definition is_dir (n : node) : bool :=
  match n with Dir _ => true | _ => false end.

Definition is_file (n : node) : bool :=
  match n with File => true | _ => false end.

(** The node a name denotes inside a directory node. *)
Fixpoint lookup (name : string) (entries : list (string * node)) : option node :=
  match entries with
  | [] => None
  | (n, x) :: entries' => if String.eqb n name then Some x else lookup name entries'
  end.

(** [os.path.isfile(os.path.join(path, name))] where [d] is the node at
    [path]. *)
Definition isfile_in (d : node) (name : string) : bool :=
  match d with
  | Dir entries =>
      match lookup name entries with
      | Some x => is_file x
      | None => false
      end
  | _ => false
  end.

(** The [dirs] and [nondirs] lists [os.walk] builds from one listing. *)
Definition dirs_of (entries : list (string * node)) : list (string * node) :=
  filter (fun e => is_dir (snd e)) entries.

Definition nondirs_of (entries : list (string * node)) : list string :=
  map fst (filter (fun e => negb (is_dir (snd e))) entries).

(** [os.walk(top, followlinks=True)], top-down.  A path is the list of
    its segments below the search root.  The consumer of the generator
    edits [dirs] in place before the walk goes on; [keep] says which
    entries of [dirs] it leaves there (in the original order).  Each step
    of the result is [(root, dirs, files)] as handed to the consumer. *)
Fixpoint walk (keep : list string -> string * node -> bool)
         (top : list string) (n : node)
  : list (list string * list (string * node) * list string) :=
  match n with
  | Dir entries =>
      (top, dirs_of entries, nondirs_of entries) ::
      flat_map (fun e =>
                  if is_dir (snd e) && keep top e
                  then walk keep (top ++ [fst e]) (snd e)
                  else [])
               entries
  | _ => []
  end.

(** [glob._ishidden]. *)
Definition _ishidden (name : string) : bool := Str.startswith "." name.

(** [glob.glob(os.path.join(where, pattern))] for a [pattern] that is
    one path segment with a wildcard and no leading dot, and a [where]
    without wildcard characters: the names in the listing of [where] that
    are not hidden and match the pattern.  What the names denote is not
    looked at.  The case of a [where] with wildcard characters is [glob]
    further down; lemma [glob_plain_root] relates the two. *)
Definition glob1 (where_ : node) (pattern : string) : list string :=
  match where_ with
  | Dir entries =>
      filter (fun name => Fnmatch.fnmatchcase name pattern)
             (filter (fun name => negb (_ishidden name)) (map fst entries))
  | _ => []
  end.

(** Split of a name at its last dot: the text before it and the text from
    it on. *)
Fixpoint rsplit_dot (p : string) : option (string * string) :=
  match p with
  | EmptyString => None
  | String c p' =>
      match rsplit_dot p' with
      | Some (r, e) => Some (String c r, e)
      | None => if Ascii.eqb c "." then Some (EmptyString, p) else None
      end
  end.

Fixpoint all_dots (p : string) : bool :=
  match p with
  | EmptyString => true
  | String c p' => Ascii.eqb c "." && all_dots p'
  end.

(** [os.path.splitext] of a name without separator: the extension starts
    at the last dot, unless only dots come before it. *)
Definition splitext (p : string) : string * string :=
  match rsplit_dot p with
  | Some (r, e) => if all_dots r then (p, EmptyString) else (r, e)
  | None => (p, EmptyString)
  end.

(** [os.path.relpath(os.path.join(root, dir), where)] for a [root] reached
    from [where] through the segments [root]. *)
Definition relpath (root : list string) (dir : string) : string :=
  String.concat "/" (root ++ [dir]).

End Os.

Import Os.

(** ** setuptools/discovery.py *)

(** [_valid_name(path)]: [dir] is [os.path.basename(path)]. *)
Definition _valid_name (dir : string) : bool := Str.isidentifier dir.

(** A finder class: its two class attributes and its [_find_iter]. *)
Record FinderClass : Type := mkFinder {
  ALWAYS_EXCLUDE : list string;
  DEFAULT_EXCLUDE : list string;
  _find_iter : node -> (string -> bool) -> (string -> bool) -> list string
}.

(** [_Finder._build_filter]: the predicate of a sequence of patterns. *)
Definition _build_filter (patterns : list string) : string -> bool :=
  fun name => existsb (fun pat => Fnmatch.fnmatchcase name pat) patterns.

(** [_Finder.find(where, exclude, include)]; [where_] is the node at
    [convert_path(where)]. *)
Definition find (cls : FinderClass) (where_ : node)
           (exclude include : list string) : list string :=
  let exclude := match exclude with
                 | [] => DEFAULT_EXCLUDE cls   (* exclude or cls.DEFAULT_EXCLUDE *)
                 | _ :: _ => exclude
                 end in
  _find_iter cls where_
             (_build_filter (ALWAYS_EXCLUDE cls ++ exclude))
             (_build_filter include).

(** The default value of [include]. *)
Definition include_all : list string := ["*"].

Section PackageFinder_find_iter.

(** [cls._looks_like_package(full_path)], given the base name of
    [full_path] and the node there. *)
Variable _looks_like_package : string -> node -> bool.
Variables exclude include : string -> bool.

Definition package_of (root : list string) (dir : string) : string :=
  Str.replace "/" "." (relpath root dir).

(** The test that ends in [continue]. *)
Definition skipped (e : string * node) : bool :=
  Str.contains "." (fst e) || negb (_looks_like_package (fst e) (snd e)).

(** One round of [for dir in all_dirs]; the state is what has been
    yielded so far and the current content of [dirs]. *)
Definition loop_step (root : list string)
           (st : list string * list (string * node)) (e : string * node)
  : list string * list (string * node) :=
  let package := package_of root (fst e) in
  if skipped e then st
  else
    let yielded := if include package && negb (exclude package)
                   then fst st ++ [package] else fst st in
    (yielded, snd st ++ [e]).

(** The body of the [for root, dirs, files in os.walk(...)] loop, from
    [dirs[:] = []] on. *)
Definition loop_body (root : list string) (all_dirs : list (string * node))
  : list string * list (string * node) :=
  fold_left (loop_step root) all_dirs ([], []).

(** [PackageFinder._find_iter] started below [where] at [root]: what the
    loop body yields at each step of the walk.  The walk goes on with the
    entries the loop body leaves in [dirs], which are those that are not
    [skipped] (lemma [loop_body_dirs]). *)
Definition find_iter_from (root : list string) (n : node) : list string :=
  flat_map (fun step => fst (loop_body (fst (fst step)) (snd (fst step))))
           (walk (fun _ e => negb (skipped e)) root n).

Definition PackageFinder_find_iter (where_ : node) : list string :=
  find_iter_from [] where_.

End PackageFinder_find_iter.

(** [PackageFinder._looks_like_package]. *)
Definition PackageFinder_looks_like_package (dir : string) (d : node) : bool :=
  isfile_in d "__init__.py".

Definition PackageFinder : FinderClass :=
  {| ALWAYS_EXCLUDE := ["ez_setup"; "*__pycache__"];
     DEFAULT_EXCLUDE := [];
     _find_iter := fun w ex inc =>
       PackageFinder_find_iter PackageFinder_looks_like_package ex inc w |}.

(** [PEP420PackageFinder._looks_like_package]. *)
Definition PEP420PackageFinder_looks_like_package (dir : string) (d : node) : bool :=
  true.

Definition PEP420PackageFinder : FinderClass :=
  {| ALWAYS_EXCLUDE := ALWAYS_EXCLUDE PackageFinder;
     DEFAULT_EXCLUDE := DEFAULT_EXCLUDE PackageFinder;
     _find_iter := fun w ex inc =>
       PackageFinder_find_iter PEP420PackageFinder_looks_like_package ex inc w |}.

Section ModuleFinder_find_iter.

(** [cls._looks_like_module(module)]. *)
Variable _looks_like_module : string -> bool.
Variables exclude include : string -> bool.

(** The module name computed from one result of [glob]; the base name of
    [os.path.join(where, name)] is [name]. *)
Definition module_of (name : string) : string := fst (splitext name).

Definition ModuleFinder_find_iter (where_ : node) : list string :=
  flat_map (fun file =>
              let module := module_of file in
              if negb (_looks_like_module module) then []
              else if include module && negb (exclude module) then [module]
              else [])
           (glob1 where_ "*.py").

End ModuleFinder_find_iter.

Definition ModuleFinder : FinderClass :=
  {| ALWAYS_EXCLUDE := [];
     DEFAULT_EXCLUDE := [];
     _find_iter := fun w ex inc => ModuleFinder_find_iter _valid_name ex inc w |}.

Definition FlatLayoutPackageFinder : FinderClass :=
  {| ALWAYS_EXCLUDE := ALWAYS_EXCLUDE PEP420PackageFinder;
     DEFAULT_EXCLUDE :=
       ["doc"; "docs"; "test"; "tests"; "example"; "examples";
        "tasks"; "fabfile"; "site_scons"; "[._]*"];
     _find_iter := fun w ex inc =>
       PackageFinder_find_iter (fun dir _ => _valid_name dir) ex inc w |}.

Definition FlatLayoutModuleFinder : FinderClass :=
  {| ALWAYS_EXCLUDE := ALWAYS_EXCLUDE ModuleFinder;
     DEFAULT_EXCLUDE :=
       ["setup"; "conftest"; "test"; "tests"; "example"; "examples";
        "noxfile"; "pavement"; "dodo"; "tasks"; "fabfile";
        "[Ss][Cc]onstruct"; "conanfile"; "manage"; "[._]*"];
     _find_iter := _find_iter ModuleFinder |}.

(** The three package finders and the two module finders. *)
Inductive PackageVariant : Type := Marker | Namespace | FlatLayout.

Inductive Variant : Type :=
| Packages (v : PackageVariant)
| Modules
| FlatLayoutModules.

Definition looks_like_package (v : PackageVariant) : string -> node -> bool :=
  match v with
  | Marker => PackageFinder_looks_like_package
  | Namespace => PEP420PackageFinder_looks_like_package
  | FlatLayout => fun dir _ => _valid_name dir
  end.

Definition package_finder (v : PackageVariant) : FinderClass :=
  match v with
  | Marker => PackageFinder
  | Namespace => PEP420PackageFinder
  | FlatLayout => FlatLayoutPackageFinder
  end.

Definition finder (v : Variant) : FinderClass :=
  match v with
  | Packages p => package_finder p
  | Modules => ModuleFinder
  | FlatLayoutModules => FlatLayoutModuleFinder
  end.

(** ** Directories below the search root *)

(** The name [PackageFinder._find_iter] gives to the directory at [path]. *)
Definition package_path (path : list string) : string :=
  Str.replace "/" "." (String.concat "/" path).

(** [dir_at n path d]: following [path] from the directory [n], entry by
    entry, leads to the directory [d]. *)
Inductive dir_at : node -> list string -> node -> Prop :=
| dir_at_child entries dir es :
    In (dir, Dir es) entries ->
    dir_at (Dir entries) [dir] (Dir es)
| dir_at_deeper entries dir es path d :
    In (dir, Dir es) entries ->
    dir_at (Dir es) path d ->
    dir_at (Dir entries) (dir :: path) d.

(** [accepted looks n path d]: as [dir_at], and no directory on the way,
    [d] included, has a dot in its base name or fails [looks]. *)
Inductive accepted (looks : string -> node -> bool)
  : node -> list string -> node -> Prop :=
| accepted_child entries dir es :
    In (dir, Dir es) entries ->
    Str.contains "." dir = false ->
    looks dir (Dir es) = true ->
    accepted looks (Dir entries) [dir] (Dir es)
| accepted_deeper entries dir es path d :
    In (dir, Dir es) entries ->
    Str.contains "." dir = false ->
    looks dir (Dir es) = true ->
    accepted looks (Dir es) path d ->
    accepted looks (Dir entries) (dir :: path) d.

(** The exclude sequence [find] works with: [exclude or cls.DEFAULT_EXCLUDE]. *)
Definition effective_exclude (cls : FinderClass) (exclude : list string) : list string :=
  match exclude with
  | [] => DEFAULT_EXCLUDE cls
  | _ :: _ => exclude
  end.


(** The two module finders. *)
Definition module_finder (flat : bool) : FinderClass :=
  if flat then FlatLayoutModuleFinder else ModuleFinder.

(** The finder [cls] with another default exclusion table. *)
Definition with_default_exclude (table : list string) (cls : FinderClass) : FinderClass :=
  {| ALWAYS_EXCLUDE := ALWAYS_EXCLUDE cls;
     DEFAULT_EXCLUDE := table;
     _find_iter := _find_iter cls |}.

(** The flat-layout package finder as the specification words it: the
    namespace-tolerant finder with the flat-layout default exclusion table
    and nothing else changed. *)
Definition FlatLayoutPackageFinder_as_specified : FinderClass :=
  with_default_exclude (DEFAULT_EXCLUDE FlatLayoutPackageFinder) PEP420PackageFinder.

(** Every directory the namespace-tolerant traversal comes across has a
    base name that is an identifier or contains a dot.  What lies below a
    directory with a dot in its name is not looked at, as the traversal
    does not enter it. *)
Fixpoint reached_dirs_named_ok (n : node) : bool :=
  match n with
  | Dir entries =>
      forallb (fun e =>
                 negb (is_dir (snd e)) ||
                 Str.contains "." (fst e) ||
                 (_valid_name (fst e) && reached_dirs_named_ok (snd e)))
              entries
  | _ => true
  end.

(** [name.split('.')]: the segments of a dotted name. *)
Fixpoint split_dots (name : string) : list string :=
  match name with
  | EmptyString => [EmptyString]
  | String c name' =>
      if Ascii.eqb c "." then EmptyString :: split_dots name'
      else match split_dots name' with
           | seg :: segs => String c seg :: segs
           | [] => [String c EmptyString]
           end
  end.

(** What a returned name denotes, per variant.  For a package finder: the
    name, read as a dot-joined path, leads from the search root [w] to a
    directory, and that directory passes the variant's test.  For a
    module finder: the search root has an entry called [name ++ ".py"] and
    the name is an identifier. *)
Definition denotes (v : Variant) (w : node) (name : string) : Prop :=
  match v with
  | Packages p =>
      exists d,
        dir_at w (split_dots name) d /\
        looks_like_package p (last (split_dots name) EmptyString) d = true
  | Modules | FlatLayoutModules =>
      exists entries x,
        w = Dir entries /\ In ((name ++ ".py")%string, x) entries /\
        _valid_name name = true
  end.

(** Everything the traversal of a finder comes across, before the include
    and exclude predicates have their say: [_find_iter] run with an
    [include] that is always true and an [exclude] that is always false. *)
Definition candidates (cls : FinderClass) (w : node) : list string :=
  _find_iter cls w (fun _ => false) (fun _ => true).

(** The test [find] applies to a candidate name. *)
Definition retained (cls : FinderClass) (exclude include : list string)
           (name : string) : bool :=
  _build_filter include name &&
  negb (_build_filter (ALWAYS_EXCLUDE cls ++ effective_exclude cls exclude) name).

(** A pattern in which no character is special for [fnmatch.translate]. *)
Fixpoint no_wildcard (pat : string) : bool :=
  match pat with
  | EmptyString => true
  | String c pat' =>
      negb (Ascii.eqb c "*") && negb (Ascii.eqb c "?") && negb (Ascii.eqb c "[")
      && no_wildcard pat'
  end.

(** No name in the tree contains the path separator, as is the case for
    every listing [os.scandir] returns. *)
Fixpoint sep_free (n : node) : bool :=
  match n with
  | Dir entries =>
      forallb (fun e => negb (Str.contains "/" (fst e)) && sep_free (snd e)) entries
  | _ => true
  end.

(** The names of a list are pairwise different. *)
Fixpoint distinct (names : list string) : bool :=
  match names with
  | [] => true
  | x :: names' => negb (existsb (String.eqb x) names') && distinct names'
  end.

(** No directory of the tree lists a name twice, as is the case for every
    listing [os.scandir] returns. *)
Fixpoint names_unique (n : node) : bool :=
  match n with
  | Dir entries =>
      distinct (map fst entries) &&
      forallb (fun e => names_unique (snd e)) entries
  | _ => true
  end.

(** The paths of the directories [PackageFinder._find_iter] comes across,
    in the order in which it does: the traversal of [find_iter_from] with
    the path kept in place of the name. *)
Fixpoint accepted_paths (looks : string -> node -> bool) (n : node)
  : list (list string) :=
  match n with
  | Dir entries =>
      map (fun e => [fst e])
          (filter (fun e => negb (skipped looks e)) (dirs_of entries)) ++
      flat_map (fun e =>
                  if is_dir (snd e) && negb (skipped looks e)
                  then map (cons (fst e)) (accepted_paths looks (snd e))
                  else [])
               entries
  | _ => []
  end.

(** A [tests] directory at the top level and one inside a package. *)
Definition nested_tests_tree : node :=
  Dir [("pkg", Dir [("tests", Dir [])]);
       ("tests", Dir [])].

(** ** The search root as a path

    [find] above takes the node at [where].  [ModuleFinder._find_iter]
    however hands [os.path.join(where, "*.py")] to [glob.glob], which reads
    the characters "*", "?" and "[" in [where] itself as wildcards.  The
    definitions below keep the path: [cwd] is the current directory and
    [where_] the names on the way from it to the search root (the empty
    list for "."). *)

(** [glob.has_magic] on one path segment. *)
Definition has_magic (segment : string) : bool := negb (no_wildcard segment).

(** The node a relative path denotes. *)
Fixpoint node_at (cwd : node) (path : list string) : option node :=
  match path with
  | [] => Some cwd
  | name :: path' =>
      match cwd with
      | Dir entries =>
          match lookup name entries with
          | Some x => node_at x path'
          | None => None
          end
      | _ => None
      end
  end.

(** [glob._lexists]. *)
Definition _lexists (cwd : node) (path : list string) : bool :=
  match node_at cwd path with
  | Some _ => true
  | None => false
  end.

(** [glob._listdir]: the names in the directory at [dirname], only those
    of directories when [dironly]; nothing when it cannot be listed. *)
Definition _listdir (cwd : node) (dirname : list string) (dironly : bool)
  : list string :=
  match node_at cwd dirname with
  | Some (Dir entries) =>
      map fst (filter (fun e => negb dironly || is_dir (snd e)) entries)
  | _ => []
  end.

(** [glob._glob1]. *)
Definition _glob1 (cwd : node) (dirname : list string) (pattern : string)
           (dironly : bool) : list string :=
  let names := _listdir cwd dirname dironly in
  let names := if _ishidden pattern then names
               else filter (fun x => negb (_ishidden x)) names in
  filter (fun name => Fnmatch.fnmatchcase name pattern) names.

(** [glob._glob0], for a non-empty [basename]. *)
Definition _glob0 (cwd : node) (dirname : list string) (basename : string)
           (dironly : bool) : list string :=
  if _lexists cwd (dirname ++ [basename]) then [basename] else [].

(** [glob._iglob] without [recursive]; the path comes last segment first,
    so that [basename] is its head and [dirname] its tail. *)
Fixpoint _iglob (cwd : node) (rpath : list string) (dironly : bool)
  : list (list string) :=
  match rpath with
  | [] => []
  | basename :: rdir =>
      let dirname := rev rdir in
      if negb (existsb has_magic rpath) then
        if _lexists cwd (dirname ++ [basename]) then [dirname ++ [basename]] else []
      else
        match rdir with
        | [] => map (fun name => [name]) (_glob1 cwd [] basename dironly)
        | _ :: _ =>
            let dirs := if existsb has_magic rdir then _iglob cwd rdir true
                        else [dirname] in
            let glob_in_dir := if has_magic basename then _glob1 else _glob0 in
            flat_map (fun d =>
                        map (fun name => d ++ [name])
                            (glob_in_dir cwd d basename dironly))
                     dirs
        end
  end.

(** [glob.glob(pathname)]. *)
Definition glob (cwd : node) (pathname : list string) : list (list string) :=
  _iglob cwd (rev pathname) false.

(** [ModuleFinder._find_iter] with the search root given as a path. *)
Definition ModuleFinder_find_iter_at (_looks_like_module : string -> bool)
           (exclude include : string -> bool)
           (cwd : node) (where_ : list string) : list string :=
  flat_map (fun file =>
              let module := module_of (last file EmptyString) in
              if negb (_looks_like_module module) then []
              else if include module && negb (exclude module) then [module]
              else [])
           (glob cwd (where_ ++ ["*.py"])).

Definition module_variant (flat : bool) : Variant :=
  if flat then FlatLayoutModules else Modules.

(** [find] with the search root given as a path: the package finders walk
    the directory at that path, the module finders glob below it. *)
Definition find_at (v : Variant) (cwd : node) (where_ : list string)
           (exclude include : list string) : list string :=
  match v with
  | Packages p =>
      match node_at cwd where_ with
      | Some w => find (package_finder p) w exclude include
      | None => []
      end
  | Modules | FlatLayoutModules =>
      ModuleFinder_find_iter_at
        _valid_name
        (_build_filter (ALWAYS_EXCLUDE (finder v) ++
                        effective_exclude (finder v) exclude))
        (_build_filter include)
        cwd where_
  end.

(** The precondition under which [glob] lists the search root itself: the
    module finders need a [where] without wildcard characters; the package
    finders do not use [glob]. *)
Definition wildcard_free_for (v : Variant) (where_ : list string) : bool :=
  match v with
  | Packages _ => true
  | Modules | FlatLayoutModules => negb (existsb has_magic where_)
  end.

(** A project directory whose name has a bracket, beside a directory
    whose name its name matches as a pattern. *)
Definition bracket_root_tree : node :=
  Dir [("proj[1]", Dir [("mod.py", File)]);
       ("proj1", Dir [("intruder.py", File)])].

(** Two directories that the name of a third one matches as a pattern. *)
Definition bracket_range_tree : node :=
  Dir [("proj[12]", Dir []);
       ("proj1", Dir [("a.py", File)]);
       ("proj2", Dir [("a.py", File)])].

(** A package beside a version-control directory. *)
Definition git_tree : node :=
  Dir [(".git", Dir [("objects", Dir [("0a", Dir [])])]);
       ("mypkg", Dir [("sub", Dir [])])].

(** The tree of the end-to-end example. *)
Definition example_tree : node :=
  Dir [("pkg1", Dir [("__init__.py", File);
                     ("sub", Dir [("__init__.py", File)])]);
       ("pkg2file.py", File);
       ("tests", Dir [("__init__.py", File)])].


(** A package below a directory with a dot in its name. *)
Definition dotted_tree : node :=
  Dir [("my.pkg", Dir [("__init__.py", File);
                       ("sub", Dir [("__init__.py", File)])])].

(** A package called [ez_setup] below the top level. *)
Definition nested_ez_setup_tree : node :=
  Dir [("pkg", Dir [("__init__.py", File);
                    ("ez_setup", Dir [("__init__.py", File)])])].

(** A directory whose name is not an identifier. *)
Definition hyphen_tree : node :=
  Dir [("my-pkg", Dir [])].

(** A directory whose name ends in ".py". *)
Definition py_directory_tree : node :=
  Dir [("pkg.py", Dir [("data.txt", File)])].

(** Packages [foo] and [foo.bar], and a [tests] directory. *)
Definition foo_tree : node :=
  Dir [("foo", Dir [("__init__.py", File);
                    ("bar", Dir [("__init__.py", File)])]);
       ("tests", Dir [("__init__.py", File)])].

(** ** Sample evaluations *)

Example fnmatchcase_literal : Fnmatch.fnmatchcase "tests" "tests" = true.
Proof. reflexivity. Qed.

Example fnmatchcase_star_dot : Fnmatch.fnmatchcase "foo.bar" "foo.*" = true.
Proof. reflexivity. Qed.

Example fnmatchcase_exact_only : Fnmatch.fnmatchcase "foo.bar" "foo" = false.
Proof. reflexivity. Qed.

Example fnmatchcase_hidden : Fnmatch.fnmatchcase "_private" "[._]*" = true.
Proof. reflexivity. Qed.

Example fnmatchcase_scons : Fnmatch.fnmatchcase "SConstruct" "[Ss][Cc]onstruct" = true.
Proof. reflexivity. Qed.

Example fnmatchcase_range : Fnmatch.fnmatchcase "b-" "[a-c][!x-z-]" = false.
Proof. reflexivity. Qed.

Example fnmatchcase_empty_range : Fnmatch.fnmatchcase "x" "[!b-a]" = true.
Proof. reflexivity. Qed.

Example fnmatchcase_uncovered_bang :
  Fnmatch.fnmatchcase "x" "[b-a!x]" = false /\
  Fnmatch.fnmatchcase "y" "[b-a!x]" = true /\
  Fnmatch.fnmatchcase "-" "[b-a!-z]" = false /\
  Fnmatch.fnmatchcase "q" "[b-a!-z]" = true.
Proof. repeat split; reflexivity. Qed.

Example splitext_py : splitext "pkg2file.py" = ("pkg2file", ".py").
Proof. reflexivity. Qed.

Example splitext_dots : splitext "...py" = ("...py", "").
Proof. reflexivity. Qed.

Example isidentifier_digit : Str.isidentifier "1bad" = false.
Proof. reflexivity. Qed.

Example example_packages :
  find PackageFinder example_tree ["tests"] include_all = ["pkg1"; "pkg1.sub"].
Proof. reflexivity. Qed.

Example example_modules :
  find ModuleFinder example_tree [] include_all = ["pkg2file"].
Proof. reflexivity. Qed.

(** ** Induction on trees and list facts *)

(** Induction on a tree, with the hypothesis for every entry of a
    directory. *)
Lemma node_tree_ind (P : node -> Prop) :
  P File -> P Special ->
  (forall entries, Forall (fun e => P (snd e)) entries -> P (Dir entries)) ->
  forall n, P n.
Proof.
  intros HF HS HD.
  fix IH 1.
  intros [ | | entries].
  - exact HF.
  - exact HS.
  - apply HD.
    induction entries as [ | [name child] entries IHentries].
    + constructor.
    + constructor; [ apply IH | exact IHentries ].
Qed.

Lemma flat_map_flat_map {A B C : Type} (f : B -> list C) (g : A -> list B) (l : list A) :
  flat_map f (flat_map g l) = flat_map (fun x => flat_map f (g x)) l.
Proof.
  induction l as [ | a l IHl]; simpl.
  - reflexivity.
  - rewrite flat_map_app, IHl. reflexivity.
Qed.

Lemma flat_map_filter {A B : Type} (p : A -> bool) (f : A -> list B) (l : list A) :
  flat_map (fun x => if p x then f x else []) l = flat_map f (filter p l).
Proof.
  induction l as [ | a l IHl]; simpl.
  - reflexivity.
  - destruct (p a); simpl; rewrite IHl; reflexivity.
Qed.

Section PackageFinder_facts.

Variable looks : string -> node -> bool.
Variables exclude include : string -> bool.

Lemma package_of_path (root : list string) (dir : string) :
  package_of root dir = package_path (root ++ [dir]).
Proof. reflexivity. Qed.

Lemma loop_fold (root : list string) (all_dirs : list (string * node)) :
  forall yielded dirs,
    fold_left (loop_step looks exclude include root) all_dirs (yielded, dirs) =
    (yielded ++
       map (fun e => package_of root (fst e))
           (filter (fun e => negb (skipped looks e) && (include (package_of root (fst e)) && negb (exclude (package_of root (fst e)))))
                   all_dirs),
     dirs ++ filter (fun e => negb (skipped looks e)) all_dirs).
Proof.
  induction all_dirs as [ | e all_dirs IH]; intros yielded dirs; simpl.
  - rewrite !app_nil_r. reflexivity.
  - unfold loop_step at 2.
    destruct (skipped looks e); simpl.
    + apply IH.
    + destruct (include (package_of root (fst e)) && negb (exclude (package_of root (fst e))));
        simpl; rewrite IH; rewrite <- !app_assoc; reflexivity.
Qed.

(** What one round of the outer loop yields. *)
Lemma loop_body_yields (root : list string) (all_dirs : list (string * node)) :
  fst (loop_body looks exclude include root all_dirs) =
  map (fun e => package_of root (fst e))
      (filter (fun e => negb (skipped looks e) && (include (package_of root (fst e)) && negb (exclude (package_of root (fst e)))))
              all_dirs).
Proof. unfold loop_body. rewrite loop_fold. reflexivity. Qed.

(** What one round of the outer loop leaves in [dirs]: the entries that
    [os.walk] visits next are those the model of [walk] is told to keep. *)
Lemma loop_body_dirs (root : list string) (all_dirs : list (string * node)) :
  snd (loop_body looks exclude include root all_dirs) =
  filter (fun e => negb (skipped looks e)) all_dirs.
Proof. unfold loop_body. rewrite loop_fold. reflexivity. Qed.

(** The traversal, one directory at a time. *)
Lemma find_iter_from_Dir (root : list string) (entries : list (string * node)) :
  find_iter_from looks exclude include root (Dir entries) =
  fst (loop_body looks exclude include root (dirs_of entries)) ++
  flat_map (fun e => find_iter_from looks exclude include (root ++ [fst e]) (snd e))
           (snd (loop_body looks exclude include root (dirs_of entries))).
Proof.
  unfold find_iter_from at 1. simpl.
  f_equal.
  rewrite flat_map_flat_map, loop_body_dirs.
  unfold dirs_of. rewrite <- !flat_map_filter.
  apply flat_map_ext. intros e.
  destruct (is_dir (snd e)); simpl; [ | reflexivity ].
  destruct (skipped looks e); reflexivity.
Qed.

Lemma find_iter_from_not_dir (root : list string) (n : node) :
  is_dir n = false -> find_iter_from looks exclude include root n = [].
Proof. destruct n; simpl; intros H; [ reflexivity | reflexivity | discriminate ]. Qed.

Lemma skipped_false (dir : string) (d : node) :
  skipped looks (dir, d) = false <->
  Str.contains "." dir = false /\ looks dir d = true.
Proof.
  unfold skipped. simpl. rewrite orb_false_iff, negb_false_iff. reflexivity.
Qed.

(** Every yielded name is the name of an accepted directory and passed
    both predicates. *)
Lemma find_iter_sound (n : node) :
  forall root name,
    In name (find_iter_from looks exclude include root n) ->
    exists path d,
      accepted looks n path d /\
      name = package_path (root ++ path) /\
      include name = true /\ exclude name = false.
Proof.
  induction n as [ | | entries IH] using node_tree_ind; intros root name Hin.
  - contradiction.
  - contradiction.
  - rewrite find_iter_from_Dir, loop_body_yields, loop_body_dirs in Hin.
    apply in_app_or in Hin. destruct Hin as [Hin | Hin].
    + apply in_map_iff in Hin. destruct Hin as [[dir d] [Hname Hin]].
      apply filter_In in Hin. destruct Hin as [Hin Hok].
      apply filter_In in Hin. destruct Hin as [Hin Hdir].
      apply andb_true_iff in Hok. destruct Hok as [Hskip Hpass].
      apply negb_true_iff, skipped_false in Hskip. destruct Hskip as [Hdot Hlooks].
      apply andb_true_iff in Hpass.
      destruct Hpass as [Hinc Hexc]. apply negb_true_iff in Hexc.
      simpl in *. destruct d as [ | | es]; try discriminate.
      exists [dir], (Dir es). subst name.
      repeat split; try assumption.
      constructor; assumption.
    + apply in_flat_map in Hin. destruct Hin as [[dir d] [Hin Hsub]].
      apply filter_In in Hin. destruct Hin as [Hin Hskip].
      apply filter_In in Hin. destruct Hin as [Hin Hdir].
      apply negb_true_iff, skipped_false in Hskip. destruct Hskip as [Hdot Hlooks].
      simpl in *. destruct d as [ | | es]; try discriminate.
      rewrite Forall_forall in IH.
      destruct (IH _ Hin _ _ Hsub) as [path [d' [Hacc [Hname [Hinc Hexc]]]]].
      exists (dir :: path), d'. rewrite <- app_assoc in Hname.
      repeat split; try assumption.
      apply accepted_deeper with (es := es); assumption.
Qed.

(** Every accepted directory whose own name passes both predicates is
    yielded, whatever the predicates say of the directories above it. *)
Lemma find_iter_complete (n : node) (path : list string) (d : node) :
  accepted looks n path d ->
  forall root,
    include (package_path (root ++ path)) = true ->
    exclude (package_path (root ++ path)) = false ->
    In (package_path (root ++ path)) (find_iter_from looks exclude include root n).
Proof.
  induction 1 as [entries dir es Hin Hdot Hlooks
                 | entries dir es path d Hin Hdot Hlooks Hacc IH];
    intros root Hinc Hexc;
    rewrite find_iter_from_Dir, loop_body_yields, loop_body_dirs;
    apply in_or_app.
  - left. apply in_map_iff. exists (dir, Dir es). split; [ reflexivity | ].
    apply filter_In. split.
    + apply filter_In. split; [ assumption | reflexivity ].
    + apply andb_true_iff. split.
      * apply negb_true_iff, skipped_false. split; assumption.
      * simpl. rewrite package_of_path, Hinc, Hexc. reflexivity.
  - right. apply in_flat_map. exists (dir, Dir es). split.
    + apply filter_In. split.
      * apply filter_In. split; [ assumption | reflexivity ].
      * apply negb_true_iff, skipped_false. split; assumption.
    + simpl.
      assert (Heq : root ++ dir :: path = (root ++ [dir]) ++ path)
        by (rewrite <- app_assoc; reflexivity).
      rewrite Heq in *. apply IH; assumption.
Qed.

End PackageFinder_facts.

(** ** Facts about strings and patterns *)

Section Str_facts.

Lemma append_assoc (a b c : string) :
  ((a ++ b) ++ c)%string = (a ++ (b ++ c))%string.
Proof. induction a as [ | x a IHa]; simpl; [ reflexivity | rewrite IHa; reflexivity ]. Qed.

Lemma replace_append (a b : ascii) (s t : string) :
  Str.replace a b (s ++ t)%string = (Str.replace a b s ++ Str.replace a b t)%string.
Proof.
  induction s as [ | c s IHs]; simpl; [ reflexivity | rewrite IHs; reflexivity ].
Qed.

Lemma endswith_iff (p s : string) :
  Str.endswith p s = true <-> exists pre, s = (pre ++ p)%string.
Proof.
  split.
  - induction s as [ | c s IHs]; simpl; intros H.
    + apply orb_true_iff in H. destruct H as [H | H]; [ | discriminate ].
      apply String.eqb_eq in H. subst p. exists EmptyString. reflexivity.
    + apply orb_true_iff in H. destruct H as [H | H].
      * apply String.eqb_eq in H. subst p. exists EmptyString. reflexivity.
      * destruct (IHs H) as [pre Hpre]. exists (String c pre). simpl.
        rewrite Hpre. reflexivity.
  - intros [pre Hpre]. subst s.
    induction pre as [ | c pre IHpre]; simpl.
    + destruct p; cbn [Str.endswith]; rewrite String.eqb_refl; reflexivity.
    + rewrite IHpre. apply orb_true_r.
Qed.

Lemma startswith_iff (p s : string) :
  Str.startswith p s = true <-> exists suf, s = (p ++ suf)%string.
Proof.
  revert s. induction p as [ | a p IHp]; intros s; simpl.
  - split; [ intros _; exists s; reflexivity | reflexivity ].
  - destruct s as [ | b s].
    + split; [ discriminate | intros [suf H]; discriminate ].
    + rewrite andb_true_iff, Ascii.eqb_eq, IHp. split.
      * intros [Hab [suf Hs]]. subst. exists suf. reflexivity.
      * intros [suf H]. injection H as Hab Hs. split; [ auto | exists suf; assumption ].
Qed.

(** The name of a directory ends with the directory's base name, with
    any separator in it turned into a dot. *)
Lemma package_path_snoc (root : list string) (dir : string) :
  exists pre,
    package_path (root ++ [dir]) = (pre ++ Str.replace "/" "." dir)%string.
Proof.
  unfold package_path.
  induction root as [ | a root IH]; simpl.
  - exists EmptyString. reflexivity.
  - destruct IH as [pre Hpre].
    destruct (root ++ [dir]) as [ | b l] eqn:E.
    + destruct root; discriminate.
    + exists (Str.replace "/" "." (a ++ "/") ++ pre)%string.
      rewrite append_assoc, <- Hpre, <- replace_append, append_assoc.
      reflexivity.
Qed.

End Str_facts.

Section Fnmatch_facts.

Import Fnmatch.

Lemma matches_star_unfold (toks : list token) (s : string) :
  matches (TStar :: toks) s =
  matches toks s ||
  match s with
  | EmptyString => false
  | String _ s' => matches (TStar :: toks) s'
  end.
Proof. destruct s; reflexivity. Qed.

Lemma matches_lits (p s : string) : matches (lits p) s = true <-> s = p.
Proof.
  revert s. induction p as [ | c p IHp]; intros s.
  - destruct s; simpl; split; intros H; congruence.
  - destruct s as [ | a s]; simpl.
    + split; intros H; discriminate.
    + rewrite andb_true_iff, Ascii.eqb_eq, IHp.
      split; [ intros [-> ->]; reflexivity | intros H; injection H; auto ].
Qed.

Lemma matches_star (toks : list token) (s : string) :
  matches (TStar :: toks) s = true <->
  exists pre suf, s = (pre ++ suf)%string /\ matches toks suf = true.
Proof.
  induction s as [ | c s IHs]; rewrite matches_star_unfold, orb_true_iff.
  - split.
    + intros [H | H]; [ | discriminate ].
      exists EmptyString, EmptyString. split; [ reflexivity | assumption ].
    + intros [pre [suf [Hs H]]].
      destruct pre; [ | discriminate ]. simpl in Hs. subst suf. left. assumption.
  - rewrite IHs. split.
    + intros [H | [pre [suf [Hs H]]]].
      * exists EmptyString, (String c s). split; [ reflexivity | assumption ].
      * exists (String c pre), suf. subst s. split; [ reflexivity | assumption ].
    + intros [pre [suf [Hs H]]].
      destruct pre as [ | a pre]; simpl in Hs.
      * subst suf. left. assumption.
      * injection Hs as Ha Hs. right. exists pre, suf. split; assumption.
Qed.

(** A pattern without wildcard characters matches itself only. *)
Lemma fnmatchcase_ez_setup (name : string) :
  fnmatchcase name "ez_setup" = true <-> name = "ez_setup".
Proof. apply (matches_lits "ez_setup"). Qed.

Lemma fnmatchcase_foo (name : string) :
  fnmatchcase name "foo" = true <-> name = "foo".
Proof. apply (matches_lits "foo"). Qed.

(** A star followed by plain text matches the names that end in it. *)
Lemma fnmatchcase_pycache (name : string) :
  fnmatchcase name "*__pycache__" = true <-> Str.endswith "__pycache__" name = true.
Proof.
  rewrite endswith_iff.
  change (fnmatchcase name "*__pycache__")
    with (matches (TStar :: lits "__pycache__") name).
  rewrite matches_star. split.
  - intros [pre [suf [Hs H]]]. apply matches_lits in H. subst. exists pre. reflexivity.
  - intros [pre Hs]. exists pre, "__pycache__". split; [ assumption | reflexivity ].
Qed.

Lemma fnmatchcase_py (name : string) :
  fnmatchcase name "*.py" = true <-> exists stem, name = (stem ++ ".py")%string.
Proof.
  change (fnmatchcase name "*.py") with (matches (TStar :: lits ".py") name).
  rewrite matches_star. split.
  - intros [pre [suf [Hs H]]]. apply matches_lits in H. subst. exists pre. reflexivity.
  - intros [pre Hs]. exists pre, ".py". split; [ assumption | reflexivity ].
Qed.

(** The pattern of the default [include] matches every name. *)
Lemma fnmatchcase_all (name : string) : fnmatchcase name "*" = true.
Proof.
  change (fnmatchcase name "*") with (matches [TStar] name).
  apply matches_star. exists name, EmptyString. split; [ | reflexivity ].
  induction name as [ | c name IH]; simpl; [ reflexivity | rewrite <- IH; reflexivity ].
Qed.

Lemma build_filter_app (ps qs : list string) (name : string) :
  _build_filter (ps ++ qs) name = _build_filter ps name || _build_filter qs name.
Proof. unfold _build_filter. apply existsb_app. Qed.

Lemma build_filter_true (ps : list string) (name : string) :
  _build_filter ps name = true <->
  exists pat, In pat ps /\ fnmatchcase name pat = true.
Proof. unfold _build_filter. apply existsb_exists. Qed.

End Fnmatch_facts.

(** ** Facts about [ModuleFinder._find_iter] *)

Section ModuleFinder_facts.

Lemma glob1_In (entries : list (string * node)) (pattern file : string) :
  In file (glob1 (Dir entries) pattern) <->
  In file (map fst entries) /\ _ishidden file = false /\
  Fnmatch.fnmatchcase file pattern = true.
Proof.
  unfold glob1. rewrite !filter_In, negb_true_iff. tauto.
Qed.

Lemma rsplit_dot_py (stem : string) :
  rsplit_dot (stem ++ ".py") = Some (stem, ".py").
Proof.
  induction stem as [ | c stem IH]; simpl.
  - reflexivity.
  - simpl in IH. rewrite IH. reflexivity.
Qed.

(** The module name of a visible file name that ends in ".py". *)
Lemma module_of_py (stem : string) :
  _ishidden (stem ++ ".py") = false -> module_of (stem ++ ".py") = stem.
Proof.
  intros Hhid. unfold module_of, splitext. rewrite rsplit_dot_py.
  destruct stem as [ | c stem]; [ cbv in Hhid; discriminate | ].
  unfold _ishidden in Hhid. cbn [Str.startswith append] in Hhid.
  cbn [all_dots].
  destruct (Ascii.eqb_spec "." c) as [E | E]; [ simpl in Hhid; discriminate | ].
  destruct (Ascii.eqb_spec c ".") as [E' | E']; [ congruence | reflexivity ].
Qed.

Variable looks : string -> bool.
Variables exclude include : string -> bool.

(** Every yielded module is the stem of a visible name of the listing of
    the search root that ends in ".py"; it passed the name test and both
    predicates. *)
Lemma module_find_iter_sound (w : node) (name : string) :
  In name (ModuleFinder_find_iter looks exclude include w) ->
  exists entries x,
    w = Dir entries /\ In ((name ++ ".py")%string, x) entries /\
    _ishidden (name ++ ".py") = false /\
    looks name = true /\ include name = true /\ exclude name = false.
Proof.
  unfold ModuleFinder_find_iter. intros Hin.
  apply in_flat_map in Hin. destruct Hin as [file [Hfile Hin]].
  destruct w as [ | | entries]; [ contradiction | contradiction | ].
  apply glob1_In in Hfile. destruct Hfile as [Hentry [Hhid Hpy]].
  apply fnmatchcase_py in Hpy. destruct Hpy as [stem Hstem]. subst file.
  rewrite (module_of_py _ Hhid) in Hin.
  destruct (looks stem) eqn:Hlooks; simpl in Hin; [ | contradiction ].
  destruct (include stem) eqn:Hinc; simpl in Hin; [ | contradiction ].
  destruct (exclude stem) eqn:Hexc; simpl in Hin; [ contradiction | ].
  destruct Hin as [Hin | []]. subst name.
  apply in_map_iff in Hentry. destruct Hentry as [[file x] [Hfst Hentry]].
  simpl in Hfst. subst file.
  exists entries, x. repeat split; assumption.
Qed.

(** The result depends on the names of the listing only, not on what
    they denote. *)
Lemma module_find_iter_names (es1 es2 : list (string * node)) :
  map fst es1 = map fst es2 ->
  ModuleFinder_find_iter looks exclude include (Dir es1) =
  ModuleFinder_find_iter looks exclude include (Dir es2).
Proof.
  intros H. unfold ModuleFinder_find_iter, glob1. rewrite H. reflexivity.
Qed.

End ModuleFinder_facts.

(** ** Facts shared by all finders *)

(** Whatever a finder yields passed the include predicate and was not
    caught by the exclude predicate it was given. *)
Lemma find_iter_filtered (v : Variant) (w : node) (ex inc : string -> bool)
      (name : string) :
  In name (_find_iter (finder v) w ex inc) ->
  inc name = true /\ ex name = false.
Proof.
  destruct v as [p | | ]; simpl; intros Hin.
  - assert (H : In name (find_iter_from (looks_like_package p) ex inc [] w))
      by (destruct p; exact Hin).
    apply find_iter_sound in H.
    destruct H as [path [d [_ [_ [Hinc Hexc]]]]]. split; assumption.
  - apply module_find_iter_sound in Hin.
    destruct Hin as [entries [x [_ [_ [_ [_ [Hinc Hexc]]]]]]]. split; assumption.
  - apply module_find_iter_sound in Hin.
    destruct Hin as [entries [x [_ [_ [_ [_ [Hinc Hexc]]]]]]]. split; assumption.
Qed.

Lemma find_unfold (cls : FinderClass) (w : node) (exclude include : list string) :
  find cls w exclude include =
  _find_iter cls w
             (_build_filter (ALWAYS_EXCLUDE cls ++ effective_exclude cls exclude))
             (_build_filter include).
Proof. reflexivity. Qed.

Lemma find_package_finder (p : PackageVariant) (w : node) (exclude include : list string) :
  find (package_finder p) w exclude include =
  find_iter_from (looks_like_package p)
    (_build_filter (ALWAYS_EXCLUDE PackageFinder ++
                    effective_exclude (package_finder p) exclude))
    (_build_filter include) [] w.
Proof. destruct p; reflexivity. Qed.

(** ** Facts about accepted directories *)

Lemma accepted_no_dots (looks : string -> node -> bool) (n : node)
      (path : list string) (d : node) :
  accepted looks n path d ->
  Forall (fun dir => Str.contains "." dir = false) path.
Proof.
  induction 1; constructor; auto.
Qed.

Lemma accepted_dir_at (looks : string -> node -> bool) (n : node)
      (path : list string) (d : node) :
  accepted looks n path d -> dir_at n path d.
Proof.
  induction 1; [ apply dir_at_child | eapply dir_at_deeper ]; eassumption.
Qed.

Lemma accepted_last (looks : string -> node -> bool) (n : node)
      (path : list string) (d : node) :
  accepted looks n path d -> looks (last path EmptyString) d = true.
Proof.
  induction 1 as [ | entries dir es path d Hin Hdot Hlooks Hacc IH].
  - assumption.
  - destruct path as [ | dir' path]; [ inversion Hacc | exact IH ].
Qed.

(** [os.walk] only enters accepted directories. *)
Lemma walk_roots (looks : string -> node -> bool) (n : node) :
  forall top step,
    In step (walk (fun _ e => negb (skipped looks e)) top n) ->
    fst (fst step) = top \/
    exists path d, accepted looks n path d /\ fst (fst step) = top ++ path.
Proof.
  induction n as [ | | entries IH] using node_tree_ind; intros top step Hin.
  - contradiction.
  - contradiction.
  - simpl in Hin. destruct Hin as [Hin | Hin].
    + left. subst step. reflexivity.
    + right. apply in_flat_map in Hin. destruct Hin as [[dir d] [Hentry Hin]].
      simpl in Hin.
      destruct d as [ | | es]; simpl in Hin; try contradiction.
      destruct (skipped looks (dir, Dir es)) eqn:Hskip; simpl in Hin; [ contradiction | ].
      apply skipped_false in Hskip. destruct Hskip as [Hdot Hlooks].
      rewrite Forall_forall in IH.
      destruct (IH _ Hentry _ _ Hin) as [Hroot | [path [d' [Hacc Hroot]]]].
      * exists [dir], (Dir es). split; [ constructor; assumption | assumption ].
      * exists (dir :: path), d'. split.
        -- apply accepted_deeper with (es := es); assumption.
        -- rewrite Hroot, <- app_assoc. reflexivity.
Qed.

(** Two tests that agree on every directory of a tree give the same
    traversal. *)
Lemma find_iter_from_looks (looks1 looks2 : string -> node -> bool)
      (ex inc : string -> bool) (agree : node -> bool) (n : node) :
  (forall entries,
      agree (Dir entries) = true ->
      forall e, In e entries -> is_dir (snd e) = true ->
                skipped looks1 e = skipped looks2 e /\
                (skipped looks1 e = false -> agree (snd e) = true)) ->
  agree n = true ->
  forall root,
    find_iter_from looks1 ex inc root n = find_iter_from looks2 ex inc root n.
Proof.
  intros Hagree.
  induction n as [ | | entries IH] using node_tree_ind; intros Hn root.
  - reflexivity.
  - reflexivity.
  - rewrite !find_iter_from_Dir, !loop_body_yields, !loop_body_dirs.
    rewrite Forall_forall in IH.
    assert (Hdirs : forall e, In e (dirs_of entries) ->
                              In e entries /\ is_dir (snd e) = true)
      by (intros e He; apply filter_In in He; exact He).
    f_equal.
    + f_equal. apply filter_ext_in. intros e He.
      destruct (Hdirs e He) as [Hin Hdir].
      destruct (Hagree entries Hn e Hin Hdir) as [Heq _]. rewrite Heq. reflexivity.
    + assert (Hfilter : filter (fun e => negb (skipped looks1 e)) (dirs_of entries) =
                        filter (fun e => negb (skipped looks2 e)) (dirs_of entries)).
      { apply filter_ext_in. intros e He.
        destruct (Hdirs e He) as [Hin Hdir].
        destruct (Hagree entries Hn e Hin Hdir) as [Heq _]. rewrite Heq. reflexivity. }
      rewrite <- Hfilter.
      rewrite !flat_map_concat_map. f_equal.
      apply map_ext_in. intros e He.
      apply filter_In in He. destruct He as [He Hskip].
      destruct (Hdirs e He) as [Hin Hdir].
      apply IH; [ assumption | ].
      apply (Hagree entries Hn e Hin Hdir). apply negb_true_iff. assumption.
Qed.

(** The orders in which three names can be listed. *)
Lemma Permutation_three {A : Type} (a b c : A) (l : list A) :
  Permutation [a; b; c] l ->
  l = [a; b; c] \/ l = [a; c; b] \/ l = [b; a; c] \/
  l = [b; c; a] \/ l = [c; a; b] \/ l = [c; b; a].
Proof.
  intros H.
  assert (Hlen := Permutation_length H).
  destruct l as [ | x [ | y [ | z [ | ? ?]]]]; try discriminate.
  assert (Hx : In x [a; b; c])
    by (apply Permutation_in with (l := [x; y; z]);
        [ apply Permutation_sym; assumption | left; reflexivity ]).
  destruct Hx as [Hx | [Hx | [Hx | []]]]; subst x.
  - apply Permutation_cons_inv, Permutation_length_2_inv in H.
    destruct H as [H | H]; injection H as <- <-; tauto.
  - apply Permutation_sym in H.
    apply (Permutation_cons_app_inv [a] [c]) in H.
    apply Permutation_sym, Permutation_length_2_inv in H.
    destruct H as [H | H]; injection H as <- <-; tauto.
  - apply Permutation_sym in H.
    apply (Permutation_cons_app_inv [a; b] []) in H.
    apply Permutation_sym, Permutation_length_2_inv in H.
    destruct H as [H | H]; injection H as <- <-; tauto.
Qed.

(** ** Properties of the finders *)

(** C1, as stated, fails: a directory with a dot in its base name is not
    descended into.  On [dotted_tree] the directory [my.pkg/sub] has a
    valid name and a package-initializer file, and no package finder
    returns anything. *)
Lemma dotted_directory_blocks_discovery :
  dir_at dotted_tree ["my.pkg"; "sub"] (Dir [("__init__.py", File)]) /\
  find PackageFinder dotted_tree [] include_all = [] /\
  find PEP420PackageFinder dotted_tree [] include_all = [] /\
  find FlatLayoutPackageFinder dotted_tree [] include_all = [].
Proof.
  split.
  - eapply dir_at_deeper; [ left; reflexivity | ].
    apply dir_at_child. right. left. reflexivity.
  - repeat split; reflexivity.
Qed.

(** C1 (amended).  For every package finder and every tree: a directory
    that passes the structural tests (no dot in the base name, looks like a
    package), as do all directories above it, is returned as soon as its
    own qualified name passes the include and exclude predicates, whatever
    these predicates say of the directories above it: a directory rejected
    by the predicates does not block discovery below it.  A directory with
    a dot in its base name is never yielded and nothing below it is: every
    returned name is the name of a path without such a segment. *)
Theorem excluded_parent_does_not_block
        (p : PackageVariant) (w : node) (exclude include : list string) :
  (forall path d,
      accepted (looks_like_package p) w path d ->
      _build_filter include (package_path path) = true ->
      _build_filter (ALWAYS_EXCLUDE (package_finder p) ++
                     effective_exclude (package_finder p) exclude)
                    (package_path path) = false ->
      In (package_path path) (find (package_finder p) w exclude include)) /\
  Forall (fun name =>
            exists path d,
              accepted (looks_like_package p) w path d /\
              name = package_path path /\
              Forall (fun dir => Str.contains "." dir = false) path)
         (find (package_finder p) w exclude include).
Proof.
  rewrite find_package_finder. split.
  - intros path d Hacc Hinc Hexc.
    apply (find_iter_complete _ _ _ _ _ _ Hacc []).
    + exact Hinc.
    + destruct p; exact Hexc.
  - apply Forall_forall. intros name Hin.
    apply find_iter_sound in Hin.
    destruct Hin as [path [d [Hacc [Hname _]]]].
    exists path, d. repeat split; try assumption.
    eapply accepted_no_dots; eassumption.
Qed.

Lemma excluded_parent_does_not_block_witness :
  accepted (looks_like_package Marker) example_tree ["pkg1"; "sub"]
           (Dir [("__init__.py", File)]) /\
  _build_filter ["pkg1"; "tests"] "pkg1" = true /\
  In "pkg1.sub" (find PackageFinder example_tree ["pkg1"; "tests"] include_all).
Proof.
  assert (Hacc : accepted (looks_like_package Marker) example_tree ["pkg1"; "sub"]
                          (Dir [("__init__.py", File)])).
  { eapply accepted_deeper; [ left; reflexivity | reflexivity | reflexivity | ].
    apply accepted_child; [ right; left; reflexivity | reflexivity | reflexivity ]. }
  split; [ exact Hacc | split; [ reflexivity | ] ].
  exact (proj1 (excluded_parent_does_not_block Marker example_tree
                  ["pkg1"; "tests"] include_all)
               ["pkg1"; "sub"] _ Hacc eq_refl eq_refl).
Defined.

(** C2, as stated, fails below the top level: the pattern "ez_setup" is
    matched against the whole qualified name, so the package [pkg.ez_setup]
    is returned. *)
Lemma nested_ez_setup_is_returned :
  find PackageFinder nested_ez_setup_tree [] include_all = ["pkg"; "pkg.ez_setup"].
Proof. reflexivity. Qed.

(** C2 (amended).  For every package finder, every tree and every include
    and exclude arguments: no returned name is "ez_setup" (the directory of
    that name directly below the search root) and no returned name ends in
    "__pycache__"; so no directory whose base name ends in "__pycache__" is
    returned, at any depth.  A directory called "ez_setup" below the top
    level is not covered. *)
Theorem always_exclude_on_qualified_names
        (p : PackageVariant) (w : node) (exclude include : list string) :
  Forall (fun name =>
            String.eqb name "ez_setup" = false /\
            Str.endswith "__pycache__" name = false)
         (find (package_finder p) w exclude include) /\
  forall (root : list string) (stem : string),
    ~ In (package_of root (stem ++ "__pycache__"))
         (find (package_finder p) w exclude include).
Proof.
  assert (Hall : forall name,
             In name (find (package_finder p) w exclude include) ->
             Fnmatch.fnmatchcase name "ez_setup" = false /\
             Fnmatch.fnmatchcase name "*__pycache__" = false).
  { intros name Hin.
    apply (find_iter_filtered (Packages p)) in Hin. destruct Hin as [_ Hexc].
    rewrite build_filter_app in Hexc. apply orb_false_iff in Hexc.
    destruct Hexc as [Hexc _].
    assert (Halways : _build_filter ["ez_setup"; "*__pycache__"] name = false)
      by (destruct p; exact Hexc).
    unfold _build_filter in Halways. simpl in Halways.
    rewrite orb_false_r in Halways. apply orb_false_iff in Halways. exact Halways. }
  split.
  - apply Forall_forall. intros name Hin.
    destruct (Hall name Hin) as [Hez Hpy]. split.
    + destruct (String.eqb_spec name "ez_setup") as [E | E]; [ | reflexivity ].
      apply fnmatchcase_ez_setup in E. congruence.
    + destruct (Str.endswith "__pycache__" name) eqn:E; [ | reflexivity ].
      apply fnmatchcase_pycache in E. congruence.
  - intros root stem Hin.
    destruct (Hall _ Hin) as [_ Hpy].
    assert (Hends : Str.endswith "__pycache__" (package_of root (stem ++ "__pycache__")) = true).
    { apply endswith_iff. rewrite package_of_path.
      destruct (package_path_snoc root (stem ++ "__pycache__")) as [pre Hpre].
      rewrite Hpre, replace_append.
      exists (pre ++ Str.replace "/" "." stem)%string.
      rewrite append_assoc. reflexivity. }
    apply fnmatchcase_pycache in Hends. congruence.
Qed.

Lemma always_exclude_on_qualified_names_witness :
  ~ In "pkg.__pycache__"
       (find PackageFinder nested_ez_setup_tree ["tests"] ["pkg.*"]).
Proof.
  exact (proj2 (always_exclude_on_qualified_names Marker nested_ez_setup_tree
                  ["tests"] ["pkg.*"]) ["pkg"] EmptyString).
Defined.

(** C3, as stated, fails: the flat-layout finder also replaces the
    classification test by [_valid_name], so it leaves out a directory
    whose name is not an identifier, which the namespace-tolerant finder
    with the flat-layout table returns. *)
Lemma flat_layout_rejects_non_identifier :
  find FlatLayoutPackageFinder hyphen_tree [] include_all = [] /\
  find FlatLayoutPackageFinder_as_specified hyphen_tree [] include_all = ["my-pkg"].
Proof. split; reflexivity. Qed.

(** C3 (amended).  On every tree in which each directory that the
    namespace-tolerant traversal comes across (the directories below the
    root that are not below a directory with a dot in its name) has a base
    name that is an identifier or contains a dot, and for every include
    and exclude arguments, [FlatLayoutPackageFinder.find] returns the same
    ordered list as the namespace-tolerant finder with the flat-layout
    default exclusion table.  (Besides the table, the flat-layout finder
    overrides the classification test with the identifier test.) *)
Theorem flat_layout_specializes_namespace_finder
        (w : node) (exclude include : list string) :
  reached_dirs_named_ok w = true ->
  find FlatLayoutPackageFinder w exclude include =
  find FlatLayoutPackageFinder_as_specified w exclude include.
Proof.
  intros Hok.
  change (find FlatLayoutPackageFinder w exclude include)
    with (find_iter_from (fun dir _ => _valid_name dir)
            (_build_filter (ALWAYS_EXCLUDE FlatLayoutPackageFinder ++
                            effective_exclude FlatLayoutPackageFinder exclude))
            (_build_filter include) [] w).
  change (find FlatLayoutPackageFinder_as_specified w exclude include)
    with (find_iter_from PEP420PackageFinder_looks_like_package
            (_build_filter (ALWAYS_EXCLUDE FlatLayoutPackageFinder ++
                            effective_exclude FlatLayoutPackageFinder exclude))
            (_build_filter include) [] w).
  apply find_iter_from_looks with (agree := reached_dirs_named_ok); [ | exact Hok ].
  intros entries Hentries [dir d] Hin Hdir.
  simpl in Hentries. rewrite forallb_forall in Hentries.
  specialize (Hentries _ Hin). simpl in Hentries, Hdir. rewrite Hdir in Hentries.
  simpl in Hentries.
  unfold skipped, PEP420PackageFinder_looks_like_package. simpl.
  destruct (Str.contains "." dir); simpl.
  - split; [ reflexivity | discriminate ].
  - simpl in Hentries. apply andb_true_iff in Hentries.
    destruct Hentries as [Hname Hsub].
    rewrite Hname. simpl. split; [ reflexivity | intros _; exact Hsub ].
Qed.

Lemma flat_layout_specializes_namespace_finder_witness :
  reached_dirs_named_ok git_tree = true /\
  find FlatLayoutPackageFinder git_tree [] include_all = ["mypkg"; "mypkg.sub"] /\
  find FlatLayoutPackageFinder git_tree [] include_all =
  find FlatLayoutPackageFinder_as_specified git_tree [] include_all.
Proof.
  split; [ reflexivity | split; [ reflexivity | ] ].
  apply (flat_layout_specializes_namespace_finder git_tree [] include_all).
  reflexivity.
Defined.

(** C4.  For every package finder and every tree: [os.walk] enters, beside
    the search root, only directories that are accepted, that is, whose
    base name has no dot and that look like a package, as do all the
    directories on the way from the root; and every returned name is the
    name of such a path.  So a directory that is rejected for its dotted
    name or by the looks-like-a-package test is not recursed into, and no
    returned name has it as a path segment. *)
Theorem rejected_directory_is_not_entered
        (p : PackageVariant) (w : node) (exclude include : list string) :
  Forall (fun step =>
            fst (fst step) = [] \/
            exists d, accepted (looks_like_package p) w (fst (fst step)) d)
         (walk (fun _ e => negb (skipped (looks_like_package p) e)) [] w) /\
  Forall (fun name =>
            exists path d,
              accepted (looks_like_package p) w path d /\
              name = package_path path)
         (find (package_finder p) w exclude include).
Proof.
  split.
  - apply Forall_forall. intros step Hin.
    apply walk_roots in Hin. destruct Hin as [Hroot | [path [d [Hacc Hroot]]]].
    + left. assumption.
    + right. exists d. simpl in Hroot. rewrite Hroot. assumption.
  - rewrite find_package_finder. apply Forall_forall. intros name Hin.
    apply find_iter_sound in Hin.
    destruct Hin as [path [d [Hacc [Hname _]]]].
    exists path, d. split; assumption.
Qed.

(** C5.  The module finder is to enumerate files only, and a directory
    is never to be yielded.  The code does not look at what a name
    denotes: [glob] matches names, so on [py_directory_tree], where
    [pkg.py] is a directory, [ModuleFinder.find] returns the module [pkg]. *)
Lemma py_directory_is_yielded :
  find ModuleFinder py_directory_tree [] include_all = ["pkg"].
Proof. reflexivity. Qed.

(** C6.  On the tree of the end-to-end example, in whatever order the
    entries of the search root and of [pkg1] are listed: the marker-based
    package finder with [exclude=('tests',)] returns ['pkg1', 'pkg1.sub'],
    and the module finder returns ['pkg2file']. *)
Theorem end_to_end_example (root_entries pkg1_entries : list (string * node)) :
  Permutation [("__init__.py", File); ("sub", Dir [("__init__.py", File)])]
              pkg1_entries ->
  Permutation [("pkg1", Dir pkg1_entries); ("pkg2file.py", File);
               ("tests", Dir [("__init__.py", File)])]
              root_entries ->
  find PackageFinder (Dir root_entries) ["tests"] include_all = ["pkg1"; "pkg1.sub"] /\
  find ModuleFinder (Dir root_entries) [] include_all = ["pkg2file"].
Proof.
  intros Hpkg1 Hroot.
  apply Permutation_length_2_inv in Hpkg1.
  apply Permutation_three in Hroot.
  destruct Hpkg1 as [-> | ->];
    destruct Hroot as [-> | [-> | [-> | [-> | [-> | ->]]]]];
    split; reflexivity.
Qed.

Lemma end_to_end_example_witness :
  find PackageFinder example_tree ["tests"] include_all = ["pkg1"; "pkg1.sub"] /\
  find ModuleFinder example_tree [] include_all = ["pkg2file"].
Proof.
  apply (end_to_end_example _ _ (Permutation_refl _) (Permutation_refl _)).
Defined.

(** C7.  For every finder variant, every tree and every include argument:
    with an empty exclude sequence no returned name matches the variant's
    default exclusion table; with a non-empty exclude sequence the result
    is the one of the same finder with any other default table, the empty
    one included, so the table is not applied; and in both cases no
    returned name matches the always-exclude table. *)
Theorem default_exclude_fallback (v : Variant) (w : node) (include : list string) :
  Forall (fun name =>
            _build_filter (DEFAULT_EXCLUDE (finder v)) name = false /\
            _build_filter (ALWAYS_EXCLUDE (finder v)) name = false)
         (find (finder v) w [] include) /\
  forall (pat : string) (exclude table : list string),
    find (finder v) w (pat :: exclude) include =
    find (with_default_exclude table (finder v)) w (pat :: exclude) include /\
    find (finder v) w (pat :: exclude) include =
    _find_iter (finder v) w
               (_build_filter (ALWAYS_EXCLUDE (finder v) ++ pat :: exclude))
               (_build_filter include) /\
    Forall (fun name =>
              _build_filter (pat :: exclude) name = false /\
              _build_filter (ALWAYS_EXCLUDE (finder v)) name = false)
           (find (finder v) w (pat :: exclude) include).
Proof.
  split.
  - apply Forall_forall. intros name Hin.
    rewrite find_unfold in Hin. apply find_iter_filtered in Hin.
    destruct Hin as [_ Hexc]. rewrite build_filter_app in Hexc.
    apply orb_false_iff in Hexc. simpl in Hexc. tauto.
  - intros pat exclude table. split; [ reflexivity | split; [ reflexivity | ] ].
    apply Forall_forall. intros name Hin.
    rewrite find_unfold in Hin. apply find_iter_filtered in Hin.
    destruct Hin as [_ Hexc]. rewrite build_filter_app in Hexc.
    apply orb_false_iff in Hexc. simpl effective_exclude in Hexc. tauto.
Qed.

(** With the defaults, the flat-layout finder leaves [tests] out; with an
    explicit exclude it returns it. *)
Example default_table_replaced :
  find FlatLayoutPackageFinder foo_tree [] include_all = ["foo"; "foo.bar"] /\
  find FlatLayoutPackageFinder foo_tree ["foo"] include_all = ["tests"; "foo.bar"].
Proof. split; reflexivity. Qed.

(** C8.  For every finder variant, every tree and every exclude argument,
    [find] with the empty include sequence returns the empty list: the
    predicate built from no pattern is never true. *)
Theorem empty_include_finds_nothing (v : Variant) (w : node) (exclude : list string) :
  find (finder v) w exclude [] = [] /\
  forall name, _build_filter [] name = false.
Proof.
  split; [ | reflexivity ].
  destruct (find (finder v) w exclude []) as [ | name names] eqn:E;
    [ reflexivity | ].
  assert (Hin : In name (find (finder v) w exclude [])) by (rewrite E; left; reflexivity).
  rewrite find_unfold in Hin. apply find_iter_filtered in Hin.
  destruct Hin as [Hinc _]. discriminate.
Qed.

(** C9.  Every returned name is to denote an entity that exists below
    the search root.  The module finders hand [os.path.join(where, "*.py")]
    to [glob] without escaping [where]: with the search root [proj[1]] of
    [bracket_root_tree], whose only entry is [mod.py], they return the
    module [intruder], which is a file of the directory [proj1] beside the
    root, and they do not return [mod]. *)
Lemma module_from_outside_the_root :
  node_at bracket_root_tree ["proj[1]"] = Some (Dir [("mod.py", File)]) /\
  find_at Modules bracket_root_tree ["proj[1]"] [] include_all = ["intruder"] /\
  find_at FlatLayoutModules bracket_root_tree ["proj[1]"] [] include_all = ["intruder"].
Proof. repeat split; reflexivity. Qed.

(** C10.  For every package finder and every tree that has packages [foo]
    and [foo.bar]: [find] with [exclude=('foo',)] does not return 'foo' and
    returns 'foo.bar'; with [exclude=('foo.*',)] it does not return
    'foo.bar'.  Patterns are matched against the whole dotted name. *)
Theorem exact_exclude_keeps_subpackages
        (p : PackageVariant) (entries foo_entries bar_entries : list (string * node)) :
  In ("foo", Dir foo_entries) entries ->
  looks_like_package p "foo" (Dir foo_entries) = true ->
  In ("bar", Dir bar_entries) foo_entries ->
  looks_like_package p "bar" (Dir bar_entries) = true ->
  ~ In "foo" (find (package_finder p) (Dir entries) ["foo"] include_all) /\
  In "foo.bar" (find (package_finder p) (Dir entries) ["foo"] include_all) /\
  ~ In "foo.bar" (find (package_finder p) (Dir entries) ["foo.*"] include_all).
Proof.
  intros Hfoo Hfoo_looks Hbar Hbar_looks.
  assert (Hacc : accepted (looks_like_package p) (Dir entries) ["foo"; "bar"]
                          (Dir bar_entries)).
  { eapply accepted_deeper; [ exact Hfoo | reflexivity | exact Hfoo_looks | ].
    apply accepted_child; [ exact Hbar | reflexivity | exact Hbar_looks ]. }
  split; [ | split ].
  - intros Hin. rewrite find_unfold in Hin.
    apply (find_iter_filtered (Packages p)) in Hin. destruct Hin as [_ Hexc].
    destruct p; discriminate.
  - rewrite find_package_finder.
    apply (find_iter_complete _ _ _ _ _ _ Hacc []).
    + reflexivity.
    + destruct p; reflexivity.
  - intros Hin. rewrite find_unfold in Hin.
    apply (find_iter_filtered (Packages p)) in Hin. destruct Hin as [_ Hexc].
    destruct p; discriminate.
Qed.

Lemma exact_exclude_keeps_subpackages_witness :
  ~ In "foo" (find PackageFinder foo_tree ["foo"] include_all) /\
  In "foo.bar" (find PackageFinder foo_tree ["foo"] include_all) /\
  ~ In "foo.bar" (find PackageFinder foo_tree ["foo.*"] include_all).
Proof.
  apply (exact_exclude_keeps_subpackages Marker _
           [("__init__.py", File); ("bar", Dir [("__init__.py", File)])]
           [("__init__.py", File)]).
  - left. reflexivity.
  - reflexivity.
  - right. left. reflexivity.
  - reflexivity.
Defined.

(** ** The search root as a path *)

Lemma filter_all {A : Type} (f : A -> bool) (l : list A) :
  (forall x, f x = true) -> filter f l = l.
Proof.
  intros H. induction l as [ | a l IHl]; simpl.
  - reflexivity.
  - rewrite H, IHl. reflexivity.
Qed.

Lemma existsb_reversed {A : Type} (f : A -> bool) (l : list A) :
  existsb f (rev l) = existsb f l.
Proof.
  induction l as [ | a l IHl]; simpl.
  - reflexivity.
  - rewrite existsb_app, IHl. simpl. rewrite orb_false_r. apply orb_comm.
Qed.

Lemma flat_map_of_map {A B C : Type} (f : B -> list C) (g : A -> B) (l : list A) :
  flat_map f (map g l) = flat_map (fun x => f (g x)) l.
Proof.
  induction l as [ | a l IHl]; simpl; [ | rewrite IHl ]; reflexivity.
Qed.

Lemma _glob1_plain (cwd : node) (dirname : list string) (pattern : string) :
  _ishidden pattern = false ->
  _glob1 cwd dirname pattern false =
  match node_at cwd dirname with
  | Some w => glob1 w pattern
  | None => []
  end.
Proof.
  intros Hhid. unfold _glob1, _listdir. rewrite Hhid.
  destruct (node_at cwd dirname) as [[ | | entries] | ]; try reflexivity.
  unfold glob1. rewrite (filter_all (fun e => negb false || is_dir (snd e)));
    reflexivity.
Qed.

(** For a search root without wildcard characters, [glob] lists the root
    itself. *)
Lemma glob_plain_root (cwd : node) (where_ : list string) :
  existsb has_magic where_ = false ->
  glob cwd (where_ ++ ["*.py"]) =
  map (fun name => where_ ++ [name])
      match node_at cwd where_ with
      | Some w => glob1 w "*.py"
      | None => []
      end.
Proof.
  intros Hplain. unfold glob. rewrite rev_app_distr.
  change (rev ["*.py"] ++ rev where_) with ("*.py" :: rev where_).
  cbn [_iglob].
  change (existsb has_magic ("*.py" :: rev where_))
    with (has_magic "*.py" || existsb has_magic (rev where_)).
  change (has_magic "*.py") with true. cbn [orb negb].
  destruct (rev where_) as [ | s l] eqn:Hrev.
  - assert (Hnil : where_ = [])
      by (rewrite <- (rev_involutive where_), Hrev; reflexivity).
    subst where_. rewrite (_glob1_plain cwd [] "*.py" eq_refl). reflexivity.
  - rewrite <- Hrev, existsb_reversed, Hplain, rev_involutive.
    cbn [flat_map]. rewrite app_nil_r.
    rewrite (_glob1_plain cwd where_ "*.py" eq_refl). reflexivity.
Qed.

Lemma module_find_iter_at_plain (looks : string -> bool) (ex inc : string -> bool)
      (cwd : node) (where_ : list string) :
  existsb has_magic where_ = false ->
  ModuleFinder_find_iter_at looks ex inc cwd where_ =
  match node_at cwd where_ with
  | Some w => ModuleFinder_find_iter looks ex inc w
  | None => []
  end.
Proof.
  intros Hplain. unfold ModuleFinder_find_iter_at.
  rewrite (glob_plain_root cwd where_ Hplain), flat_map_of_map.
  assert (Hlast : forall name : string, last (where_ ++ [name]) EmptyString = name)
    by (intros name; apply last_last).
  destruct (node_at cwd where_) as [w | ]; [ | reflexivity ].
  unfold ModuleFinder_find_iter.
  apply flat_map_ext. intros file. rewrite Hlast. reflexivity.
Qed.

(** Under the precondition of [glob], [find] on a path is [find] on the
    node at that path. *)
Lemma find_at_node (v : Variant) (cwd : node) (where_ : list string) (w : node)
      (exclude include : list string) :
  wildcard_free_for v where_ = true ->
  node_at cwd where_ = Some w ->
  find_at v cwd where_ exclude include = find (finder v) w exclude include.
Proof.
  intros Hplain Hnode.
  destruct v as [p | | ]; simpl in Hplain |- *.
  - rewrite Hnode. reflexivity.
  - apply negb_true_iff in Hplain.
    unfold find_at. rewrite (module_find_iter_at_plain _ _ _ _ _ Hplain), Hnode.
    reflexivity.
  - apply negb_true_iff in Hplain.
    unfold find_at. rewrite (module_find_iter_at_plain _ _ _ _ _ Hplain), Hnode.
    reflexivity.
Qed.

(** With a bracket in the name of the search root, the module finders
    list other directories; a name can then come twice. *)
Example module_twice_from_outside_the_root :
  find_at Modules bracket_range_tree ["proj[12]"] [] include_all = ["a"; "a"].
Proof. reflexivity. Qed.

(** ** Further properties of the traversal *)

Lemma filter_map_comm {A B : Type} (P : B -> bool) (f : A -> B) (l : list A) :
  filter P (map f l) = map f (filter (fun x => P (f x)) l).
Proof.
  induction l as [ | a l IHl]; simpl.
  - reflexivity.
  - destruct (P (f a)); simpl; rewrite IHl; reflexivity.
Qed.

Lemma filter_filter_and {A : Type} (P Q : A -> bool) (l : list A) :
  filter P (filter Q l) = filter (fun x => Q x && P x) l.
Proof.
  induction l as [ | a l IHl]; simpl.
  - reflexivity.
  - destruct (Q a); simpl; [ destruct (P a) | ]; rewrite IHl; reflexivity.
Qed.

Lemma filter_flat_map {A B : Type} (P : B -> bool) (g : A -> list B) (l : list A) :
  filter P (flat_map g l) = flat_map (fun x => filter P (g x)) l.
Proof.
  induction l as [ | a l IHl]; simpl.
  - reflexivity.
  - rewrite filter_app, IHl. reflexivity.
Qed.

Lemma flat_map_ext_in {A B : Type} (f g : A -> list B) (l : list A) :
  (forall x, In x l -> f x = g x) -> flat_map f l = flat_map g l.
Proof.
  intros H. rewrite !flat_map_concat_map. f_equal. apply map_ext_in. exact H.
Qed.

(** The predicates do not steer the traversal of the package finders:
    running it with them gives what filtering the unfiltered run gives. *)
Lemma find_iter_from_filter (looks : string -> node -> bool)
      (ex inc : string -> bool) (n : node) :
  forall root,
    find_iter_from looks ex inc root n =
    filter (fun name => inc name && negb (ex name))
           (find_iter_from looks (fun _ => false) (fun _ => true) root n).
Proof.
  induction n as [ | | entries IH] using node_tree_ind; intros root.
  - reflexivity.
  - reflexivity.
  - rewrite !find_iter_from_Dir, !loop_body_yields, !loop_body_dirs.
    rewrite filter_app. f_equal.
    + rewrite filter_map_comm, filter_filter_and. f_equal.
      apply filter_ext. intros e.
      destruct (skipped looks e); reflexivity.
    + rewrite filter_flat_map. apply flat_map_ext_in. intros e He.
      apply filter_In in He. destruct He as [He _].
      apply filter_In in He. destruct He as [He _].
      rewrite Forall_forall in IH. apply (IH e He).
Qed.

Lemma module_find_iter_filter (looks : string -> bool) (ex inc : string -> bool)
      (w : node) :
  ModuleFinder_find_iter looks ex inc w =
  filter (fun name => inc name && negb (ex name))
         (ModuleFinder_find_iter looks (fun _ => false) (fun _ => true) w).
Proof.
  unfold ModuleFinder_find_iter. rewrite filter_flat_map.
  apply flat_map_ext. intros file.
  destruct (looks (module_of file)); simpl; [ | reflexivity ].
  destruct (inc (module_of file) && negb (ex (module_of file))); reflexivity.
Qed.

Lemma find_iter_filter (v : Variant) (w : node) (ex inc : string -> bool) :
  _find_iter (finder v) w ex inc =
  filter (fun name => inc name && negb (ex name)) (candidates (finder v) w).
Proof.
  destruct v as [p | | ].
  - destruct p; apply find_iter_from_filter.
  - apply module_find_iter_filter.
  - apply module_find_iter_filter.
Qed.

(** X1.  For every finder variant, tree and arguments, [find] returns the
    candidates of the traversal, in traversal order, that match an include
    pattern and no always-exclude or (effective) exclude pattern: the
    patterns select among the candidates and have no influence on which
    directories are visited. *)
Theorem find_filters_candidates
        (v : Variant) (w : node) (exclude include : list string) :
  find (finder v) w exclude include =
  filter (retained (finder v) exclude include) (candidates (finder v) w).
Proof.
  rewrite find_unfold, find_iter_filter. reflexivity.
Qed.

(** X2.  For every finder variant: adding patterns to a non-empty
    exclude sequence never adds a name to the result, and adding patterns
    to the include sequence never removes one, whatever the exclude
    sequence, the empty one included. *)
Theorem more_excludes_fewer_names
        (v : Variant) (w : node) (pat : string)
        (exclude more_exclude include more_include any_exclude : list string) :
  incl (find (finder v) w (pat :: exclude ++ more_exclude) include)
       (find (finder v) w (pat :: exclude) include) /\
  incl (find (finder v) w any_exclude include)
       (find (finder v) w any_exclude (include ++ more_include)).
Proof.
  rewrite !find_unfold, !find_iter_filter.
  split; intros name Hin; apply filter_In in Hin; destruct Hin as [Hin Hok];
    apply filter_In; (split; [ exact Hin | ]);
    apply andb_true_iff in Hok; destruct Hok as [Hinc Hexc];
    apply andb_true_iff.
  - split; [ exact Hinc | ].
    apply negb_true_iff in Hexc. simpl effective_exclude in Hexc.
    rewrite build_filter_app in Hexc. apply orb_false_iff in Hexc.
    destruct Hexc as [Halways Hexc].
    apply negb_true_iff. simpl effective_exclude.
    rewrite build_filter_app. apply orb_false_iff.
    split; [ exact Halways | ].
    change (pat :: exclude ++ more_exclude) with ((pat :: exclude) ++ more_exclude) in Hexc.
    rewrite build_filter_app in Hexc. apply orb_false_iff in Hexc. tauto.
  - split; [ | exact Hexc ].
    rewrite build_filter_app, Hinc. reflexivity.
Qed.

Lemma accepted_mono (looks1 looks2 : string -> node -> bool) (n : node)
      (path : list string) (d : node) :
  (forall dir x, looks1 dir x = true -> looks2 dir x = true) ->
  accepted looks1 n path d -> accepted looks2 n path d.
Proof.
  intros Hmono. induction 1.
  - apply accepted_child; auto.
  - eapply accepted_deeper; eauto.
Qed.

Lemma find_iter_from_In (looks : string -> node -> bool) (ex inc : string -> bool)
      (n : node) (name : string) :
  In name (find_iter_from looks ex inc [] n) <->
  exists path d,
    accepted looks n path d /\ name = package_path path /\
    inc name = true /\ ex name = false.
Proof.
  split.
  - apply find_iter_sound.
  - intros [path [d [Hacc [Hname [Hinc Hexc]]]]]. subst name.
    apply (find_iter_complete _ _ _ _ _ _ Hacc []); assumption.
Qed.

Lemma find_package_In (p : PackageVariant) (w : node)
      (exclude include : list string) (name : string) :
  In name (find (package_finder p) w exclude include) <->
  exists path d,
    accepted (looks_like_package p) w path d /\
    name = package_path path /\
    _build_filter include name = true /\
    _build_filter (ALWAYS_EXCLUDE (package_finder p) ++
                   effective_exclude (package_finder p) exclude) name = false.
Proof.
  rewrite find_package_finder, find_iter_from_In.
  split; intros [path [d [Hacc [Hname [Hinc Hexc]]]]]; exists path, d;
    (split; [ exact Hacc | split; [ exact Hname | split; [ exact Hinc | ] ] ]);
    destruct p; exact Hexc.
Qed.

(** X3.  For every package finder, a name is returned exactly when it is
    the dotted name of a directory path below the search root on which
    every directory has a base name without dot and passes the variant's
    looks-like-a-package test, and the name itself matches an include
    pattern and no exclude pattern. *)
Theorem package_finder_returns_exactly
        (p : PackageVariant) (w : node) (exclude include : list string)
        (name : string) :
  In name (find (package_finder p) w exclude include) <->
  exists path d,
    accepted (looks_like_package p) w path d /\
    name = package_path path /\
    retained (package_finder p) exclude include name = true.
Proof.
  rewrite find_package_In. unfold retained.
  split; intros [path [d [Hacc [Hname H]]]]; exists path, d;
    (split; [ exact Hacc | split; [ exact Hname | ] ]).
  - destruct H as [Hinc Hexc]. rewrite Hinc, Hexc. reflexivity.
  - apply andb_true_iff in H. destruct H as [Hinc Hexc].
    apply negb_true_iff in Hexc. split; assumption.
Qed.

Lemma module_find_iter_complete (looks : string -> bool) (ex inc : string -> bool)
      (entries : list (string * node)) (name : string) (x : node) :
  In ((name ++ ".py")%string, x) entries ->
  _ishidden (name ++ ".py") = false ->
  looks name = true -> inc name = true -> ex name = false ->
  In name (ModuleFinder_find_iter looks ex inc (Dir entries)).
Proof.
  intros Hentry Hhid Hlooks Hinc Hexc.
  unfold ModuleFinder_find_iter. apply in_flat_map.
  exists (name ++ ".py")%string. split.
  - apply glob1_In. split; [ | split ].
    + apply in_map_iff. exists ((name ++ ".py")%string, x). split; [ reflexivity | assumption ].
    + assumption.
    + apply fnmatchcase_py. exists name. reflexivity.
  - rewrite (module_of_py _ Hhid), Hlooks, Hinc, Hexc. left. reflexivity.
Qed.

(** X4.  For both module finders and a search root whose path has no
    wildcard character ("*", "?", "["): a name is returned exactly when
    the listing of the search root has an entry called [name ++ ".py"] that
    is not hidden, the name is an identifier, and it matches an include
    pattern and no exclude pattern. *)
Theorem module_finder_returns_exactly
        (flat : bool) (cwd : node) (where_ : list string)
        (entries : list (string * node))
        (exclude include : list string) (name : string) :
  existsb has_magic where_ = false ->
  node_at cwd where_ = Some (Dir entries) ->
  (In name (find_at (module_variant flat) cwd where_ exclude include) <->
   (exists x, In ((name ++ ".py")%string, x) entries) /\
   _ishidden (name ++ ".py") = false /\
   _valid_name name = true /\
   retained (module_finder flat) exclude include name = true).
Proof.
  intros Hplain Hnode.
  assert (Hfind : find_at (module_variant flat) cwd where_ exclude include =
                  ModuleFinder_find_iter _valid_name
                    (_build_filter (ALWAYS_EXCLUDE (module_finder flat) ++
                                    effective_exclude (module_finder flat) exclude))
                    (_build_filter include) (Dir entries)).
  { rewrite (find_at_node (module_variant flat) cwd where_ (Dir entries));
      [ destruct flat; reflexivity
      | destruct flat; simpl; rewrite Hplain; reflexivity
      | exact Hnode ]. }
  rewrite Hfind. unfold retained. split.
  - intros Hin. apply module_find_iter_sound in Hin.
    destruct Hin as [entries' [x [Hw [Hentry [Hhid [Hvalid [Hinc Hexc]]]]]]].
    injection Hw as <-.
    split; [ exists x; assumption | ].
    split; [ assumption | split; [ assumption | ] ].
    rewrite Hinc, Hexc. reflexivity.
  - intros [[x Hentry] [Hhid [Hvalid Hok]]].
    apply andb_true_iff in Hok. destruct Hok as [Hinc Hexc].
    apply negb_true_iff in Hexc.
    eapply module_find_iter_complete; eassumption.
Qed.

Lemma module_finder_returns_exactly_witness :
  existsb has_magic ["proj1"] = false /\
  In "intruder" (find_at Modules bracket_root_tree ["proj1"] [] include_all).
Proof.
  split; [ reflexivity | ].
  apply (module_finder_returns_exactly false bracket_root_tree ["proj1"]
           [("intruder.py", File)] [] include_all "intruder");
    [ reflexivity | reflexivity | ].
  split; [ exists File; left; reflexivity | ].
  repeat split; reflexivity.
Defined.

Lemma package_finder_returns_exactly_witness :
  In "pkg1.sub" (find PackageFinder example_tree ["tests"] include_all).
Proof.
  apply (package_finder_returns_exactly Marker example_tree ["tests"] include_all).
  exists ["pkg1"; "sub"], (Dir [("__init__.py", File)]).
  split; [ | split; reflexivity ].
  eapply accepted_deeper; [ left; reflexivity | reflexivity | reflexivity | ].
  apply accepted_child; [ right; left; reflexivity | reflexivity | reflexivity ].
Defined.

(** X5.  Whatever the marker-based finder returns, the namespace-tolerant
    finder returns too, with the same arguments; and so it is for the
    flat-layout finder when it is given a non-empty exclude sequence. *)
Theorem namespace_finder_returns_more
        (w : node) (pat : string) (exclude include : list string) :
  incl (find PackageFinder w exclude include)
       (find PEP420PackageFinder w exclude include) /\
  incl (find FlatLayoutPackageFinder w (pat :: exclude) include)
       (find PEP420PackageFinder w (pat :: exclude) include).
Proof.
  split; intros name Hin.
  - apply (find_package_In Marker) in Hin.
    apply (find_package_In Namespace).
    destruct Hin as [path [d [Hacc [Hname Hok]]]].
    exists path, d. split; [ | split; assumption ].
    eapply accepted_mono; [ | exact Hacc ]. reflexivity.
  - apply (find_package_In FlatLayout) in Hin.
    apply (find_package_In Namespace).
    destruct Hin as [path [d [Hacc [Hname Hok]]]].
    exists path, d. split; [ | split; assumption ].
    eapply accepted_mono; [ | exact Hacc ]. reflexivity.
Qed.

(** A parent is yielded before what is below it. *)
Lemma parent_first (looks : string -> node -> bool) (ex inc : string -> bool)
      (n : node) (path : list string) (d : node) :
  accepted looks n path d ->
  forall rest d' root,
    accepted looks d rest d' ->
    inc (package_path (root ++ path)) = true ->
    ex (package_path (root ++ path)) = false ->
    inc (package_path ((root ++ path) ++ rest)) = true ->
    ex (package_path ((root ++ path) ++ rest)) = false ->
    exists l1 l2,
      find_iter_from looks ex inc root n =
      l1 ++ package_path (root ++ path) :: l2 /\
      In (package_path ((root ++ path) ++ rest)) l2.
Proof.
  induction 1 as [entries dir es Hin Hdot Hlooks
                 | entries dir es path d Hin Hdot Hlooks Hacc IH];
    intros rest d' root Hbelow Hinc Hexc Hinc' Hexc';
    rewrite find_iter_from_Dir, loop_body_yields, loop_body_dirs.
  - assert (Hkept : In (dir, Dir es)
                       (filter (fun e => negb (skipped looks e)) (dirs_of entries))).
    { apply filter_In. split.
      - apply filter_In. split; [ assumption | reflexivity ].
      - apply negb_true_iff, skipped_false. split; assumption. }
    assert (Htop : In (package_path (root ++ [dir]))
                      (map (fun e => package_of root (fst e))
                           (filter (fun e => negb (skipped looks e) &&
                                             (inc (package_of root (fst e)) &&
                                              negb (ex (package_of root (fst e)))))
                                   (dirs_of entries)))).
    { apply in_map_iff. exists (dir, Dir es). split; [ reflexivity | ].
      apply filter_In. split.
      - apply filter_In. split; [ assumption | reflexivity ].
      - apply andb_true_iff. split.
        + apply negb_true_iff, skipped_false. split; assumption.
        + simpl. rewrite package_of_path, Hinc, Hexc. reflexivity. }
    apply in_split in Htop. destruct Htop as [t1 [t2 Htop]].
    rewrite Htop.
    exists t1.
    exists (t2 ++ flat_map
                    (fun e => find_iter_from looks ex inc (root ++ [fst e]) (snd e))
                    (filter (fun e => negb (skipped looks e)) (dirs_of entries))).
    split.
    + rewrite <- app_assoc. reflexivity.
    + apply in_or_app. right. apply in_flat_map.
      exists (dir, Dir es). split; [ exact Hkept | ].
      simpl. apply (find_iter_complete _ _ _ _ _ _ Hbelow); assumption.
  - assert (Hkept : In (dir, Dir es)
                       (filter (fun e => negb (skipped looks e)) (dirs_of entries))).
    { apply filter_In. split.
      - apply filter_In. split; [ assumption | reflexivity ].
      - apply negb_true_iff, skipped_false. split; assumption. }
    assert (Heq : root ++ dir :: path = (root ++ [dir]) ++ path)
      by (rewrite <- app_assoc; reflexivity).
    rewrite Heq in *.
    destruct (IH rest d' (root ++ [dir]) Hbelow Hinc Hexc Hinc' Hexc')
      as [l1 [l2 [Hsub Hchild]]].
    apply in_split in Hkept. destruct Hkept as [k1 [k2 Hkept]].
    rewrite Hkept, flat_map_app.
    remember (map (fun e => package_of root (fst e))
                  (filter (fun e => negb (skipped looks e) &&
                                    (inc (package_of root (fst e)) &&
                                     negb (ex (package_of root (fst e)))))
                          (dirs_of entries))) as tops.
    remember (fun e : string * node =>
                find_iter_from looks ex inc (root ++ [fst e]) (snd e)) as sub.
    assert (Hhere : flat_map sub ((dir, Dir es) :: k2) =
                    find_iter_from looks ex inc (root ++ [dir]) (Dir es) ++
                    flat_map sub k2)
      by (subst sub; reflexivity).
    rewrite Hhere, Hsub.
    exists (tops ++ flat_map sub k1 ++ l1), (l2 ++ flat_map sub k2).
    split.
    + repeat rewrite <- app_assoc. reflexivity.
    + apply in_or_app. left. exact Hchild.
Qed.

(** X6.  For every package finder: when a directory and a directory below
    it are both returned, the name of the upper one comes first in the
    result. *)
Theorem parent_before_subpackage
        (p : PackageVariant) (w : node) (exclude include : list string)
        (path rest : list string) (d d' : node) :
  accepted (looks_like_package p) w path d ->
  accepted (looks_like_package p) d rest d' ->
  retained (package_finder p) exclude include (package_path path) = true ->
  retained (package_finder p) exclude include (package_path (path ++ rest)) = true ->
  exists before after,
    find (package_finder p) w exclude include =
    before ++ package_path path :: after /\
    In (package_path (path ++ rest)) after.
Proof.
  intros Hacc Hbelow Hok Hok'.
  unfold retained in Hok, Hok'.
  apply andb_true_iff in Hok. destruct Hok as [Hinc Hexc].
  apply andb_true_iff in Hok'. destruct Hok' as [Hinc' Hexc'].
  apply negb_true_iff in Hexc, Hexc'.
  rewrite find_package_finder.
  apply (parent_first _ _ _ _ _ _ Hacc rest d' [] Hbelow).
  - exact Hinc.
  - destruct p; exact Hexc.
  - exact Hinc'.
  - destruct p; exact Hexc'.
Qed.

Lemma parent_before_subpackage_witness :
  exists before after,
    find PackageFinder example_tree ["tests"] include_all =
    before ++ "pkg1" :: after /\ In "pkg1.sub" after.
Proof.
  apply (parent_before_subpackage Marker example_tree ["tests"] include_all
           ["pkg1"] ["sub"]
           (Dir [("__init__.py", File); ("sub", Dir [("__init__.py", File)])])
           (Dir [("__init__.py", File)])).
  - apply accepted_child; [ left; reflexivity | reflexivity | reflexivity ].
  - apply accepted_child; [ right; left; reflexivity | reflexivity | reflexivity ].
  - reflexivity.
  - reflexivity.
Defined.

(** ** Further properties of the patterns *)

Lemma append_empty_r (s : string) : (s ++ "")%string = s.
Proof. induction s as [ | c s IHs]; simpl; [ reflexivity | rewrite IHs; reflexivity ]. Qed.

Lemma length_append (s t : string) :
  String.length (s ++ t) = String.length s + String.length t.
Proof. induction s as [ | c s IHs]; simpl; [ reflexivity | rewrite IHs; reflexivity ]. Qed.

Lemma append_same_prefix (p s t : string) :
  (p ++ s)%string = (p ++ t)%string -> s = t.
Proof.
  induction p as [ | c p IHp]; simpl; intros H.
  - exact H.
  - injection H as H. apply IHp. exact H.
Qed.

Lemma tokens_fuel_lits_app (p q : string) :
  no_wildcard p = true ->
  forall fuel,
    String.length p + String.length q <= fuel ->
    Fnmatch.tokens_fuel fuel (p ++ q) =
    Fnmatch.lits p ++ Fnmatch.tokens_fuel (fuel - String.length p) q.
Proof.
  induction p as [ | c p IHp]; intros Hlit fuel Hfuel.
  - simpl. rewrite Nat.sub_0_r. reflexivity.
  - simpl in Hlit. apply andb_true_iff in Hlit. destruct Hlit as [Hc Hlit].
    apply andb_true_iff in Hc. destruct Hc as [Hc Hbracket].
    apply andb_true_iff in Hc. destruct Hc as [Hstar Hquery].
    apply negb_true_iff in Hstar, Hquery, Hbracket.
    destruct fuel as [ | fuel]; [ simpl in Hfuel; lia | ].
    simpl. rewrite Hstar, Hquery, Hbracket.
    f_equal. apply IHp; [ exact Hlit | simpl in Hfuel; lia ].
Qed.

(** The tokens of a pattern that starts with plain text. *)
Lemma translate_lits_app (p q : string) :
  no_wildcard p = true ->
  Fnmatch.translate (p ++ q) = Fnmatch.lits p ++ Fnmatch.translate q.
Proof.
  intros Hlit. unfold Fnmatch.translate.
  rewrite (tokens_fuel_lits_app p q Hlit); rewrite length_append; [ | lia ].
  replace (String.length p + String.length q - String.length p)
    with (String.length q) by lia.
  reflexivity.
Qed.

Lemma matches_lits_app (p : string) (toks : list Fnmatch.token) (s : string) :
  Fnmatch.matches (Fnmatch.lits p ++ toks) s = true <->
  exists suf, s = (p ++ suf)%string /\ Fnmatch.matches toks suf = true.
Proof.
  revert s. induction p as [ | c p IHp]; intros s; simpl.
  - split; [ intros H; exists s; auto | intros [suf [-> H]]; exact H ].
  - destruct s as [ | a s].
    + split; [ discriminate | intros [suf [H _]]; discriminate ].
    + rewrite andb_true_iff, Ascii.eqb_eq, IHp. split.
      * intros [-> [suf [-> H]]]. exists suf. split; [ reflexivity | exact H ].
      * intros [suf [Hs H]]. injection Hs as -> ->.
        split; [ reflexivity | exists suf; split; [ reflexivity | exact H ] ].
Qed.

Lemma matches_star_all (s : string) : Fnmatch.matches [Fnmatch.TStar] s = true.
Proof. exact (fnmatchcase_all s). Qed.

(** X7.  A pattern without the characters "*", "?" and "[" matches one
    name only, itself: such an entry of [exclude] or [include] names one
    package or module and none of its subpackages. *)
Theorem plain_pattern_matches_itself_only (pat name : string) :
  no_wildcard pat = true ->
  (Fnmatch.fnmatchcase name pat = true <-> name = pat).
Proof.
  intros Hlit. unfold Fnmatch.fnmatchcase.
  rewrite <- (append_empty_r pat) at 1.
  rewrite (translate_lits_app pat "" Hlit).
  change (Fnmatch.translate "") with (@nil Fnmatch.token).
  rewrite app_nil_r. apply matches_lits.
Qed.

Lemma plain_pattern_matches_itself_only_witness :
  no_wildcard "site_scons" = true /\
  (Fnmatch.fnmatchcase "site_scons.tools" "site_scons" = true <->
   "site_scons.tools" = "site_scons").
Proof.
  split; [ reflexivity | ].
  apply (plain_pattern_matches_itself_only "site_scons" "site_scons.tools").
  reflexivity.
Defined.

Lemma fnmatchcase_dot_star (pkg name : string) :
  no_wildcard pkg = true ->
  (Fnmatch.fnmatchcase name (pkg ++ ".*") = true <->
   Str.startswith (pkg ++ ".") name = true).
Proof.
  intros Hlit. unfold Fnmatch.fnmatchcase.
  rewrite (translate_lits_app pkg ".*" Hlit).
  change (Fnmatch.translate ".*") with [Fnmatch.TLit "."; Fnmatch.TStar].
  rewrite matches_lits_app, startswith_iff. split.
  - intros [suf [-> H]].
    destruct suf as [ | c suf]; [ discriminate | ].
    change (Fnmatch.matches [Fnmatch.TLit "."; Fnmatch.TStar] (String c suf))
      with (Ascii.eqb "." c && Fnmatch.matches [Fnmatch.TStar] suf) in H.
    apply andb_true_iff in H. destruct H as [Hc _].
    apply Ascii.eqb_eq in Hc. subst c.
    exists suf. rewrite append_assoc. reflexivity.
  - intros [suf ->]. exists ("." ++ suf)%string. split.
    + rewrite append_assoc. reflexivity.
    + change (Fnmatch.matches [Fnmatch.TLit "."; Fnmatch.TStar] ("." ++ suf))
        with (Ascii.eqb "." "." && Fnmatch.matches [Fnmatch.TStar] suf).
      rewrite matches_star_all. reflexivity.
Qed.

(** X8.  For a name [pkg] without wildcard characters, the exclude pattern
    [pkg ++ ".*"] removes from the result of every package finder all
    names that start with [pkg ++ "."], the subpackages of [pkg], and it
    does not match [pkg] itself. *)
Theorem dot_star_excludes_subpackages
        (p : PackageVariant) (w : node) (pkg : string)
        (exclude include : list string) :
  no_wildcard pkg = true ->
  Forall (fun name => Str.startswith (pkg ++ ".") name = false)
         (find (package_finder p) w ((pkg ++ ".*")%string :: exclude) include) /\
  Fnmatch.fnmatchcase pkg (pkg ++ ".*") = false.
Proof.
  intros Hlit. split.
  - apply Forall_forall. intros name Hin.
    rewrite find_unfold in Hin.
    apply (find_iter_filtered (Packages p)) in Hin. destruct Hin as [_ Hexc].
    rewrite build_filter_app in Hexc. apply orb_false_iff in Hexc.
    destruct Hexc as [_ Hexc]. simpl in Hexc.
    apply orb_false_iff in Hexc. destruct Hexc as [Hexc _].
    destruct (Str.startswith (pkg ++ ".") name) eqn:E; [ | reflexivity ].
    apply (fnmatchcase_dot_star pkg name Hlit) in E. congruence.
  - destruct (Fnmatch.fnmatchcase pkg (pkg ++ ".*")) eqn:E; [ | reflexivity ].
    apply (fnmatchcase_dot_star pkg pkg Hlit), startswith_iff in E.
    destruct E as [suf E]. rewrite append_assoc in E.
    rewrite <- (append_empty_r pkg) in E at 1.
    apply append_same_prefix in E. discriminate.
Qed.

Lemma dot_star_excludes_subpackages_witness :
  find PackageFinder foo_tree ["foo.*"] include_all = ["foo"; "tests"] /\
  Forall (fun name => Str.startswith "foo." name = false)
         (find PackageFinder foo_tree ["foo.*"] include_all).
Proof.
  split; [ reflexivity | ].
  exact (proj1 (dot_star_excludes_subpackages Marker foo_tree "foo" []
                  include_all eq_refl)).
Defined.

(** X9.  An include sequence that contains "*" lets every candidate
    through: the result is the one of the default include, for every
    finder variant. *)
Theorem star_include_is_the_default
        (v : Variant) (w : node) (exclude include : list string) :
  In "*" include ->
  find (finder v) w exclude include = find (finder v) w exclude include_all.
Proof.
  intros Hstar. rewrite !find_unfold, !find_iter_filter.
  apply filter_ext. intros name. f_equal.
  transitivity true.
  - apply build_filter_true. exists "*". split; [ exact Hstar | apply fnmatchcase_all ].
  - symmetry. apply build_filter_true. exists "*".
    split; [ left; reflexivity | apply fnmatchcase_all ].
Qed.

Lemma star_include_is_the_default_witness :
  find PackageFinder example_tree ["tests"] ["pkg1"; "*"] =
  find PackageFinder example_tree ["tests"] include_all.
Proof.
  apply (star_include_is_the_default (Packages Marker) example_tree
           ["tests"] ["pkg1"; "*"]).
  right. left. reflexivity.
Defined.

Lemma fnmatchcase_hidden_or_private (name : string) :
  Fnmatch.fnmatchcase name "[._]*" =
  Str.startswith "." name || Str.startswith "_" name.
Proof.
  change (Fnmatch.fnmatchcase name "[._]*")
    with (Fnmatch.matches
            [Fnmatch.TClass false [Fnmatch.ILit "."; Fnmatch.ILit "_"]; Fnmatch.TStar]
            name).
  destruct name as [ | c name]; [ reflexivity | ].
  change (Fnmatch.matches
            [Fnmatch.TClass false [Fnmatch.ILit "."; Fnmatch.ILit "_"]; Fnmatch.TStar]
            (String c name))
    with (xorb false (Ascii.eqb "." c || (Ascii.eqb "_" c || false))
          && Fnmatch.matches [Fnmatch.TStar] name).
  rewrite matches_star_all.
  change (Str.startswith "." (String c name)) with (Ascii.eqb "." c && true).
  change (Str.startswith "_" (String c name)) with (Ascii.eqb "_" c && true).
  destruct (Ascii.eqb "." c), (Ascii.eqb "_" c); reflexivity.
Qed.

(** X10.  With the default exclude, the flat-layout package finder returns
    no name that starts with "_" or ".", so a private or hidden top-level
    directory is left out together with everything below it, and it does
    not return any of the plain names of its default table; the flat-layout
    module finder returns no module that starts with "_" and none of the
    plain names of its table. *)
Theorem flat_layout_defaults
        (w : node) (include : list string) :
  Forall (fun name =>
            Str.startswith "_" name = false /\
            Str.startswith "." name = false /\
            existsb (String.eqb name)
                    ["doc"; "docs"; "test"; "tests"; "example"; "examples";
                     "tasks"; "fabfile"; "site_scons"] = false)
         (find FlatLayoutPackageFinder w [] include) /\
  Forall (fun name =>
            Str.startswith "_" name = false /\
            existsb (String.eqb name)
                    ["setup"; "conftest"; "test"; "tests"; "example"; "examples";
                     "noxfile"; "pavement"; "dodo"; "tasks"; "fabfile";
                     "SConstruct"; "Sconstruct"; "sConstruct"; "sconstruct";
                     "conanfile"; "manage"] = false)
         (find FlatLayoutModuleFinder w [] include).
Proof.
  split; apply Forall_forall; intros name Hin.
  - apply (find_iter_filtered (Packages FlatLayout)) in Hin.
    destruct Hin as [_ Hexc].
    rewrite build_filter_app in Hexc. apply orb_false_iff in Hexc.
    destruct Hexc as [_ Hexc].
    assert (Hhid : Fnmatch.fnmatchcase name "[._]*" = false).
    { destruct (Fnmatch.fnmatchcase name "[._]*") eqn:E; [ | reflexivity ].
      assert (H : _build_filter (DEFAULT_EXCLUDE FlatLayoutPackageFinder) name = true)
        by (apply build_filter_true; exists "[._]*"; split;
            [ simpl; tauto | exact E ]).
      simpl effective_exclude in Hexc. congruence. }
    rewrite fnmatchcase_hidden_or_private in Hhid. apply orb_false_iff in Hhid.
    split; [ tauto | split; [ tauto | ] ].
    destruct (existsb _ _) eqn:E; [ | reflexivity ].
    apply existsb_exists in E. destruct E as [pat [Hpat Heq]].
    apply String.eqb_eq in Heq. subst pat.
    simpl in Hpat.
    repeat (destruct Hpat as [<- | Hpat]; [ vm_compute in Hexc; discriminate | ]).
    contradiction.
  - apply (find_iter_filtered FlatLayoutModules) in Hin.
    destruct Hin as [_ Hexc].
    rewrite build_filter_app in Hexc. apply orb_false_iff in Hexc.
    destruct Hexc as [_ Hexc].
    assert (Hhid : Fnmatch.fnmatchcase name "[._]*" = false).
    { destruct (Fnmatch.fnmatchcase name "[._]*") eqn:E; [ | reflexivity ].
      assert (H : _build_filter (DEFAULT_EXCLUDE FlatLayoutModuleFinder) name = true)
        by (apply build_filter_true; exists "[._]*"; split;
            [ simpl; tauto | exact E ]).
      simpl effective_exclude in Hexc. congruence. }
    rewrite fnmatchcase_hidden_or_private in Hhid. apply orb_false_iff in Hhid.
    split; [ tauto | ].
    destruct (existsb _ _) eqn:E; [ | reflexivity ].
    apply existsb_exists in E. destruct E as [pat [Hpat Heq]].
    apply String.eqb_eq in Heq. subst pat.
    simpl in Hpat.
    repeat (destruct Hpat as [<- | Hpat]; [ vm_compute in Hexc; discriminate | ]).
    contradiction.
Qed.

(** ** Names *)

Lemma rsplit_dot_None (p : string) :
  rsplit_dot p = None -> Str.contains "." p = false.
Proof.
  induction p as [ | c p IHp]; simpl; intros H.
  - reflexivity.
  - destruct (rsplit_dot p) as [[r e] | ]; [ discriminate | ].
    destruct (Ascii.eqb c "."); [ discriminate | ].
    simpl. apply IHp. reflexivity.
Qed.

Lemma rsplit_dot_Some (p r e : string) :
  rsplit_dot p = Some (r, e) ->
  p = (r ++ e)%string /\
  exists e', e = String "." e' /\ Str.contains "." e' = false.
Proof.
  revert r e. induction p as [ | c p IHp]; simpl; intros r e H.
  - discriminate.
  - destruct (rsplit_dot p) as [[r' e0] | ] eqn:E.
    + injection H as <- <-.
      destruct (IHp r' e0 eq_refl) as [Hp He].
      split; [ simpl; rewrite <- Hp; reflexivity | exact He ].
    + destruct (Ascii.eqb_spec c ".") as [-> | _]; [ | discriminate ].
      injection H as <- <-.
      split; [ reflexivity | ].
      exists p. split; [ reflexivity | apply rsplit_dot_None; exact E ].
Qed.

(** X11.  The module name [ModuleFinder] computes from a file name is the
    file name without its extension: the two parts put together give the
    file name back; the extension is empty, or it starts at the last dot
    of the name and what comes before it is not made of dots only. *)
Theorem module_name_and_extension (file : string) :
  (module_of file ++ snd (splitext file))%string = file /\
  (snd (splitext file) = EmptyString \/
   exists ext,
     snd (splitext file) = String "." ext /\
     Str.contains "." ext = false /\
     all_dots (module_of file) = false).
Proof.
  unfold module_of, splitext.
  destruct (rsplit_dot file) as [[r e] | ] eqn:E.
  - destruct (rsplit_dot_Some _ _ _ E) as [Hfile [ext [He Hext]]].
    destruct (all_dots r) eqn:Hdots; simpl.
    + split; [ apply append_empty_r | left; reflexivity ].
    + split; [ symmetry; exact Hfile | ].
      right. exists ext. repeat split; assumption.
  - simpl. split; [ apply append_empty_r | left; reflexivity ].
Qed.

Lemma replace_no_sep (s : string) :
  Str.contains "/" s = false -> Str.replace "/" "." s = s.
Proof.
  induction s as [ | c s IHs]; simpl; intros H.
  - reflexivity.
  - apply orb_false_iff in H. destruct H as [Hc Hs].
    rewrite Hc, (IHs Hs). reflexivity.
Qed.

Lemma package_path_concat (path : list string) :
  Forall (fun dir => Str.contains "/" dir = false) path ->
  package_path path = String.concat "." path.
Proof.
  unfold package_path.
  induction 1 as [ | dir path Hdir Hpath IH]; [ reflexivity | ].
  destruct path as [ | dir' path].
  - simpl. apply replace_no_sep. exact Hdir.
  - change (String.concat "/" (dir :: dir' :: path))
      with (dir ++ "/" ++ String.concat "/" (dir' :: path))%string.
    change (String.concat "." (dir :: dir' :: path))
      with (dir ++ "." ++ String.concat "." (dir' :: path))%string.
    rewrite !replace_append, IH, (replace_no_sep dir Hdir). reflexivity.
Qed.

Lemma accepted_sep_free (looks : string -> node -> bool) (n : node)
      (path : list string) (d : node) :
  accepted looks n path d ->
  sep_free n = true ->
  Forall (fun dir => Str.contains "/" dir = false) path.
Proof.
  induction 1 as [entries dir es Hin Hdot Hlooks
                 | entries dir es path d Hin Hdot Hlooks Hacc IH];
    intros Hfree; simpl in Hfree; rewrite forallb_forall in Hfree;
    specialize (Hfree _ Hin); simpl in Hfree;
    apply andb_true_iff in Hfree; destruct Hfree as [Hsep Hsub];
    apply negb_true_iff in Hsep; constructor; auto.
Qed.

(** X12.  For every package finder, on a tree whose names are free of the
    path separator, every returned name is the base names of the
    directories on a path below the search root joined with dots. *)
Theorem package_names_are_dotted_paths
        (p : PackageVariant) (w : node) (exclude include : list string) :
  sep_free w = true ->
  Forall (fun name =>
            exists path d,
              dir_at w path d /\ name = String.concat "." path)
         (find (package_finder p) w exclude include).
Proof.
  intros Hfree. apply Forall_forall. intros name Hin.
  apply find_package_In in Hin.
  destruct Hin as [path [d [Hacc [Hname _]]]].
  exists path, d. split.
  - eapply accepted_dir_at. exact Hacc.
  - rewrite Hname. apply package_path_concat.
    eapply accepted_sep_free; eassumption.
Qed.

Lemma package_names_are_dotted_paths_witness :
  sep_free example_tree = true /\
  Forall (fun name =>
            exists path d,
              dir_at example_tree path d /\ name = String.concat "." path)
         (find PackageFinder example_tree ["tests"] include_all).
Proof.
  split; [ reflexivity | ].
  apply (package_names_are_dotted_paths Marker example_tree ["tests"] include_all).
  reflexivity.
Defined.

Lemma xid_continue_plain (c : ascii) :
  Str.is_xid_continue c = true ->
  Ascii.eqb c "/" = false /\ Ascii.eqb c "." = false.
Proof.
  intros H. split.
  - destruct (Ascii.eqb_spec c "/") as [-> | _]; [ discriminate | reflexivity ].
  - destruct (Ascii.eqb_spec c ".") as [-> | _]; [ discriminate | reflexivity ].
Qed.

Lemma all_xid_continue_plain (s : string) :
  Str.all_xid_continue s = true ->
  Str.contains "/" s = false /\ Str.contains "." s = false.
Proof.
  induction s as [ | c s IHs]; simpl; intros H.
  - split; reflexivity.
  - apply andb_true_iff in H. destruct H as [Hc Hs].
    destruct (xid_continue_plain c Hc) as [H1 H2].
    destruct (IHs Hs) as [H3 H4].
    rewrite H1, H2, H3, H4. split; reflexivity.
Qed.

(** An identifier has no separator and no dot. *)
Lemma valid_name_plain (s : string) :
  _valid_name s = true ->
  Str.contains "/" s = false /\ Str.contains "." s = false.
Proof.
  unfold _valid_name, Str.isidentifier.
  destruct s as [ | c s]; [ discriminate | ].
  intros H. apply andb_true_iff in H. destruct H as [Hc Hs].
  apply (all_xid_continue_plain (String c s)).
  simpl. rewrite Hs. unfold Str.is_xid_continue. rewrite Hc. reflexivity.
Qed.

Lemma accepted_valid_names (n : node) (path : list string) (d : node) :
  accepted (fun dir _ => _valid_name dir) n path d ->
  Forall (fun dir => _valid_name dir = true) path.
Proof.
  induction 1; constructor; auto.
Qed.

(** X13.  Every name the flat-layout package finder returns is a sequence
    of identifiers joined with dots, and so can be written in an import
    statement; this holds for every tree and every arguments. *)
Theorem flat_layout_names_are_importable
        (w : node) (exclude include : list string) :
  Forall (fun name =>
            exists path,
              path <> [] /\
              Forall (fun dir => Str.isidentifier dir = true) path /\
              name = String.concat "." path)
         (find FlatLayoutPackageFinder w exclude include).
Proof.
  apply Forall_forall. intros name Hin.
  apply (find_package_In FlatLayout) in Hin.
  destruct Hin as [path [d [Hacc [Hname _]]]].
  assert (Hvalid := accepted_valid_names _ _ _ Hacc).
  exists path. split; [ | split ].
  - inversion Hacc; discriminate.
  - exact Hvalid.
  - rewrite Hname. apply package_path_concat.
    apply Forall_forall. intros dir Hdir.
    rewrite Forall_forall in Hvalid.
    apply (valid_name_plain dir (Hvalid dir Hdir)).
Qed.

(** ** Order of the result *)

Lemma Permutation_filter_same {A : Type} (f : A -> bool) (l l' : list A) :
  Permutation l l' -> Permutation (filter f l) (filter f l').
Proof.
  induction 1 as [ | x l l' H IH | x y l | l l' l'' H1 IH1 H2 IH2]; simpl.
  - constructor.
  - destruct (f x); [ constructor | ]; exact IH.
  - destruct (f x), (f y); try apply Permutation_refl. apply perm_swap.
  - eapply perm_trans; eassumption.
Qed.

Lemma Permutation_flat_map_same {A B : Type} (g : A -> list B) (l l' : list A) :
  Permutation l l' -> Permutation (flat_map g l) (flat_map g l').
Proof.
  induction 1 as [ | x l l' H IH | x y l | l l' l'' H1 IH1 H2 IH2]; simpl.
  - constructor.
  - apply Permutation_app_head. exact IH.
  - rewrite !app_assoc. apply Permutation_app_tail. apply Permutation_app_comm.
  - eapply perm_trans; eassumption.
Qed.

Lemma find_iter_from_Permutation (looks : string -> node -> bool)
      (ex inc : string -> bool) (root : list string)
      (entries entries' : list (string * node)) :
  Permutation entries entries' ->
  Permutation (find_iter_from looks ex inc root (Dir entries))
              (find_iter_from looks ex inc root (Dir entries')).
Proof.
  intros H.
  rewrite !find_iter_from_Dir, !loop_body_yields, !loop_body_dirs.
  apply Permutation_app.
  - apply Permutation_map. unfold dirs_of.
    repeat apply Permutation_filter_same. exact H.
  - apply Permutation_flat_map_same. unfold dirs_of.
    repeat apply Permutation_filter_same. exact H.
Qed.

Lemma module_find_iter_Permutation (looks : string -> bool)
      (ex inc : string -> bool) (entries entries' : list (string * node)) :
  Permutation entries entries' ->
  Permutation (ModuleFinder_find_iter looks ex inc (Dir entries))
              (ModuleFinder_find_iter looks ex inc (Dir entries')).
Proof.
  intros H. unfold ModuleFinder_find_iter, glob1.
  apply Permutation_flat_map_same.
  repeat apply Permutation_filter_same.
  apply Permutation_map. exact H.
Qed.

(** X14.  For every finder variant: listing the entries of the search
    root in another order gives the same names, each as many times, in
    another order. *)
Theorem listing_order_only_reorders
        (v : Variant) (entries entries' : list (string * node))
        (exclude include : list string) :
  Permutation entries entries' ->
  Permutation (find (finder v) (Dir entries) exclude include)
              (find (finder v) (Dir entries') exclude include).
Proof.
  intros H. rewrite !find_unfold.
  destruct v as [p | | ].
  - destruct p; apply find_iter_from_Permutation; exact H.
  - apply module_find_iter_Permutation. exact H.
  - apply module_find_iter_Permutation. exact H.
Qed.

Lemma listing_order_only_reorders_witness :
  Permutation
    (find PackageFinder
          (Dir [("tests", Dir [("__init__.py", File)]);
                ("foo", Dir [("__init__.py", File);
                             ("bar", Dir [("__init__.py", File)])])])
          [] include_all)
    (find PackageFinder foo_tree [] include_all).
Proof.
  apply (listing_order_only_reorders (Packages Marker)).
  apply perm_swap.
Defined.

(** X15.  For every package finder, the result on a directory starts
    with the names of its immediate subdirectories that are accepted and
    retained, in listing order; all deeper names come after them. *)
Theorem top_level_packages_come_first
        (p : PackageVariant) (entries : list (string * node))
        (exclude include : list string) :
  exists nested,
    find (package_finder p) (Dir entries) exclude include =
    map (fun e => package_path [fst e])
        (filter (fun e =>
                   is_dir (snd e) &&
                   negb (skipped (looks_like_package p) e) &&
                   retained (package_finder p) exclude include
                            (package_path [fst e]))
                entries)
    ++ nested /\
    Forall (fun name =>
              exists path d,
                accepted (looks_like_package p) (Dir entries) path d /\
                2 <= List.length path /\
                name = package_path path)
           nested.
Proof.
  rewrite find_package_finder, find_iter_from_Dir, loop_body_yields, loop_body_dirs.
  eexists. split.
  - f_equal. unfold dirs_of. rewrite filter_filter_and.
    f_equal. apply filter_ext. intros e. unfold retained.
    rewrite <- andb_assoc. f_equal. f_equal.
    destruct p; reflexivity.
  - apply Forall_forall. intros name Hin.
    apply in_flat_map in Hin. destruct Hin as [[dir d] [Hentry Hin]].
    apply filter_In in Hentry. destruct Hentry as [Hentry Hskip].
    apply filter_In in Hentry. destruct Hentry as [Hentry Hdir].
    apply negb_true_iff, skipped_false in Hskip. destruct Hskip as [Hdot Hlooks].
    simpl in *. destruct d as [ | | es]; try discriminate.
    apply find_iter_sound in Hin.
    destruct Hin as [path [d' [Hacc [Hname _]]]].
    exists (dir :: path), d'. split; [ | split ].
    + eapply accepted_deeper; eassumption.
    + inversion Hacc; simpl; lia.
    + exact Hname.
Qed.

(** ** No name twice *)

Lemma distinct_NoDup (names : list string) :
  distinct names = true -> NoDup names.
Proof.
  induction names as [ | x names IH]; simpl; intros H.
  - constructor.
  - apply andb_true_iff in H. destruct H as [Hx Hrest].
    constructor; [ | apply IH; exact Hrest ].
    intros Hin. apply negb_true_iff in Hx.
    assert (Hex : existsb (String.eqb x) names = true)
      by (apply existsb_exists; exists x; split;
          [ exact Hin | apply String.eqb_refl ]).
    congruence.
Qed.

Lemma NoDup_map_on {A B : Type} (f : A -> B) (l : list A) :
  (forall x y, In x l -> In y l -> f x = f y -> x = y) ->
  NoDup l -> NoDup (map f l).
Proof.
  induction l as [ | a l IH]; simpl; intros Hinj Hnd.
  - constructor.
  - apply NoDup_cons_iff in Hnd. destruct Hnd as [Ha Hnd].
    constructor.
    + intros Hin. apply in_map_iff in Hin. destruct Hin as [x [Hfx Hx]].
      assert (x = a) by (apply Hinj; auto).
      subst x. contradiction.
    + apply IH; [ | exact Hnd ]. intros x y Hx Hy. apply Hinj; auto.
Qed.

Lemma NoDup_map_filter {A B : Type} (f : A -> B) (c : A -> bool) (l : list A) :
  NoDup (map f l) -> NoDup (map f (filter c l)).
Proof.
  induction l as [ | a l IH]; simpl; intros Hnd.
  - constructor.
  - apply NoDup_cons_iff in Hnd. destruct Hnd as [Ha Hnd].
    destruct (c a); simpl; [ | apply IH; exact Hnd ].
    constructor; [ | apply IH; exact Hnd ].
    intros Hin. apply Ha.
    apply in_map_iff in Hin. destruct Hin as [x [Hfx Hx]].
    apply filter_In in Hx. destruct Hx as [Hx _].
    apply in_map_iff. exists x. split; assumption.
Qed.

Section accepted_paths_facts.

Variable looks : string -> node -> bool.

Lemma accepted_paths_Dir (entries : list (string * node)) :
  accepted_paths looks (Dir entries) =
  map (fun e => [fst e])
      (filter (fun e => negb (skipped looks e)) (dirs_of entries)) ++
  flat_map (fun e => map (cons (fst e)) (accepted_paths looks (snd e)))
           (filter (fun e => negb (skipped looks e)) (dirs_of entries)).
Proof.
  simpl. f_equal. unfold dirs_of. rewrite <- !flat_map_filter.
  apply flat_map_ext. intros e.
  destruct (is_dir (snd e)); simpl; [ | reflexivity ].
  destruct (skipped looks e); reflexivity.
Qed.

(** The unfiltered traversal yields the names of [accepted_paths]. *)
Lemma find_iter_from_paths (n : node) :
  forall root,
    find_iter_from looks (fun _ => false) (fun _ => true) root n =
    map (fun path => package_path (root ++ path)) (accepted_paths looks n).
Proof.
  induction n as [ | | entries IH] using node_tree_ind; intros root.
  - reflexivity.
  - reflexivity.
  - rewrite find_iter_from_Dir, loop_body_yields, loop_body_dirs, accepted_paths_Dir.
    rewrite map_app, map_map. f_equal.
    + f_equal. apply filter_ext. intros e. simpl. apply andb_true_r.
    + rewrite !flat_map_concat_map, concat_map, map_map. f_equal.
      apply map_ext_in. intros e He.
      apply filter_In in He. destruct He as [He _].
      apply filter_In in He. destruct He as [He _].
      rewrite Forall_forall in IH. rewrite (IH e He), map_map.
      apply map_ext. intros path. rewrite <- app_assoc. reflexivity.
Qed.

Lemma accepted_paths_accepted (n : node) :
  forall path, In path (accepted_paths looks n) ->
               exists d, accepted looks n path d.
Proof.
  induction n as [ | | entries IH] using node_tree_ind; intros path Hin.
  - contradiction.
  - contradiction.
  - rewrite accepted_paths_Dir in Hin. apply in_app_or in Hin.
    destruct Hin as [Hin | Hin].
    + apply in_map_iff in Hin. destruct Hin as [[dir d] [Hpath Hin]].
      apply filter_In in Hin. destruct Hin as [Hin Hskip].
      apply filter_In in Hin. destruct Hin as [Hin Hdir].
      apply negb_true_iff, skipped_false in Hskip. destruct Hskip as [Hdot Hlooks].
      simpl in *. destruct d as [ | | es]; try discriminate.
      subst path. exists (Dir es). constructor; assumption.
    + apply in_flat_map in Hin. destruct Hin as [[dir d] [Hin Hsub]].
      apply filter_In in Hin. destruct Hin as [Hin Hskip].
      apply filter_In in Hin. destruct Hin as [Hin Hdir].
      apply negb_true_iff, skipped_false in Hskip. destruct Hskip as [Hdot Hlooks].
      simpl in *. destruct d as [ | | es]; try discriminate.
      apply in_map_iff in Hsub. destruct Hsub as [path' [Hpath Hsub]].
      rewrite Forall_forall in IH.
      destruct (IH _ Hin _ Hsub) as [d' Hacc].
      subst path. exists d'. eapply accepted_deeper; eassumption.
Qed.

Lemma NoDup_under_names (entries : list (string * node))
      (sub : string * node -> list (list string)) :
  NoDup (map fst entries) ->
  (forall e, In e entries -> NoDup (sub e)) ->
  NoDup (flat_map (fun e => map (cons (fst e)) (sub e)) entries).
Proof.
  induction entries as [ | e entries IH]; simpl; intros Hnd Hsub.
  - constructor.
  - apply NoDup_cons_iff in Hnd. destruct Hnd as [He Hnd].
    apply NoDup_app.
    + apply NoDup_map_on; [ | apply Hsub; left; reflexivity ].
      intros x y _ _ H. injection H as H. exact H.
    + apply IH; [ exact Hnd | ]. intros e' He'. apply Hsub. right. exact He'.
    + intros path Hin Hin'.
      apply in_map_iff in Hin. destruct Hin as [x [Hx _]].
      apply in_flat_map in Hin'. destruct Hin' as [e' [He' Hin']].
      apply in_map_iff in Hin'. destruct Hin' as [y [Hy _]].
      subst path. injection Hy as Hname _.
      apply He. rewrite <- Hname. apply in_map. exact He'.
Qed.

Lemma accepted_paths_NoDup (n : node) :
  names_unique n = true -> NoDup (accepted_paths looks n).
Proof.
  induction n as [ | | entries IH] using node_tree_ind; intros Huniq.
  - constructor.
  - constructor.
  - simpl in Huniq. apply andb_true_iff in Huniq. destruct Huniq as [Hnames Hsub].
    apply distinct_NoDup in Hnames. rewrite forallb_forall in Hsub.
    rewrite Forall_forall in IH.
    rewrite accepted_paths_Dir. unfold dirs_of.
    assert (Hkept : NoDup (map fst
                             (filter (fun e => negb (skipped looks e))
                                     (filter (fun e => is_dir (snd e)) entries))))
      by (repeat apply NoDup_map_filter; exact Hnames).
    apply NoDup_app.
    + rewrite <- (map_map fst (fun x => [x])).
      apply NoDup_map_on; [ | exact Hkept ].
      intros x y _ _ H. injection H as H. exact H.
    + apply NoDup_under_names; [ exact Hkept | ].
      intros e He.
      apply filter_In in He. destruct He as [He _].
      apply filter_In in He. destruct He as [He _].
      apply IH; [ exact He | apply Hsub; exact He ].
    + intros path Hin Hin'.
      apply in_map_iff in Hin. destruct Hin as [e [Hpath _]].
      apply in_flat_map in Hin'. destruct Hin' as [e' [He' Hin']].
      apply in_map_iff in Hin'. destruct Hin' as [path' [Hpath' Hin']].
      apply filter_In in He'. destruct He' as [He' _].
      apply filter_In in He'. destruct He' as [He' _].
      destruct (accepted_paths_accepted _ _ Hin') as [d Hacc].
      subst path. injection Hpath' as _ Hnil. subst path'. inversion Hacc.
Qed.

End accepted_paths_facts.

(** Two texts that agree after a dotless word and a tail that is empty or
    starts with a dot agree on the word and on the tail. *)
Lemma dotless_word_inj (a a' r r' : string) :
  Str.contains "." a = false -> Str.contains "." a' = false ->
  (r = EmptyString \/ exists r0, r = String "." r0) ->
  (r' = EmptyString \/ exists r0, r' = String "." r0) ->
  (a ++ r)%string = (a' ++ r')%string ->
  a = a' /\ r = r'.
Proof.
  revert a'. induction a as [ | c a IHa]; intros a' Ha Ha' Hr Hr' Heq.
  - destruct a' as [ | c' a']; [ split; [ reflexivity | exact Heq ] | ].
    simpl in Heq, Ha'. apply orb_false_iff in Ha'. destruct Ha' as [Hc' _].
    destruct Hr as [-> | [r0 ->]]; [ discriminate | ].
    injection Heq as Hc _. subst c'. discriminate.
  - destruct a' as [ | c' a'].
    + simpl in Heq, Ha. apply orb_false_iff in Ha. destruct Ha as [Hc _].
      destruct Hr' as [-> | [r0 ->]]; [ discriminate | ].
      injection Heq as Hc' _. subst c. discriminate.
    + simpl in Heq, Ha, Ha'. injection Heq as Hc Heq. subst c'.
      apply orb_false_iff in Ha. destruct Ha as [_ Ha].
      apply orb_false_iff in Ha'. destruct Ha' as [_ Ha'].
      destruct (IHa a' Ha Ha' Hr Hr' Heq) as [-> ->]. split; reflexivity.
Qed.

Lemma concat_dot_tail (a : string) (l : list string) :
  exists r,
    String.concat "." (a :: l) = (a ++ r)%string /\
    (r = EmptyString \/ exists r0, r = String "." r0) /\
    (l = [] -> r = EmptyString) /\
    (forall b l', l = b :: l' -> r = String "." (String.concat "." l)).
Proof.
  destruct l as [ | b l].
  - exists EmptyString. simpl. rewrite append_empty_r.
    repeat split; auto. intros b l' H. discriminate.
  - exists (String "." (String.concat "." (b :: l))).
    repeat split.
    + right. eexists. reflexivity.
    + intros H. discriminate.
Qed.

(** Joining dotless words with dots loses nothing. *)
Lemma concat_dot_inj (l1 : list string) :
  forall l2,
    Forall (fun seg => Str.contains "." seg = false) l1 ->
    Forall (fun seg => Str.contains "." seg = false) l2 ->
    l1 <> [] -> l2 <> [] ->
    String.concat "." l1 = String.concat "." l2 -> l1 = l2.
Proof.
  induction l1 as [ | a l1 IH]; intros l2 H1 H2 Hne1 Hne2 Heq.
  - contradiction.
  - destruct l2 as [ | a' l2]; [ contradiction | ].
    apply Forall_cons_iff in H1. destruct H1 as [Ha H1].
    apply Forall_cons_iff in H2. destruct H2 as [Ha' H2].
    destruct (concat_dot_tail a l1) as [r [Hc [Hr [Hnil Hcons]]]].
    destruct (concat_dot_tail a' l2) as [r' [Hc' [Hr' [Hnil' Hcons']]]].
    rewrite Hc, Hc' in Heq.
    destruct (dotless_word_inj a a' r r' Ha Ha' Hr Hr' Heq) as [-> Hrr].
    f_equal.
    destruct l1 as [ | b l1], l2 as [ | b' l2].
    + reflexivity.
    + rewrite (Hnil eq_refl), (Hcons' _ _ eq_refl) in Hrr. discriminate.
    + rewrite (Hnil' eq_refl), (Hcons _ _ eq_refl) in Hrr. discriminate.
    + rewrite (Hcons _ _ eq_refl), (Hcons' _ _ eq_refl) in Hrr.
      injection Hrr as Hrr.
      apply IH; [ assumption | assumption | discriminate | discriminate | exact Hrr ].
Qed.

Lemma package_find_NoDup (looks : string -> node -> bool)
      (ex inc : string -> bool) (w : node) :
  names_unique w = true -> sep_free w = true ->
  NoDup (find_iter_from looks ex inc [] w).
Proof.
  intros Huniq Hfree.
  rewrite find_iter_from_filter. apply NoDup_filter.
  rewrite find_iter_from_paths.
  apply NoDup_map_on; [ | apply accepted_paths_NoDup; exact Huniq ].
  intros x y Hx Hy Heq. simpl in Heq.
  destruct (accepted_paths_accepted _ _ _ Hx) as [dx Hax].
  destruct (accepted_paths_accepted _ _ _ Hy) as [dy Hay].
  rewrite (package_path_concat x (accepted_sep_free _ _ _ _ Hax Hfree)) in Heq.
  rewrite (package_path_concat y (accepted_sep_free _ _ _ _ Hay Hfree)) in Heq.
  apply concat_dot_inj.
  - eapply accepted_no_dots; eassumption.
  - eapply accepted_no_dots; eassumption.
  - inversion Hax; discriminate.
  - inversion Hay; discriminate.
  - exact Heq.
Qed.

Lemma NoDup_flat_map_option {A B : Type} (c : A -> bool) (g : A -> B) (l : list A) :
  (forall x y, In x l -> In y l -> g x = g y -> x = y) ->
  NoDup l ->
  NoDup (flat_map (fun x => if c x then [g x] else []) l).
Proof.
  intros Hinj Hnd. rewrite flat_map_filter.
  assert (Hmap : forall l', flat_map (fun x => [g x]) l' = map g l')
    by (induction l' as [ | a l' IHl']; simpl; [ | rewrite IHl' ]; reflexivity).
  rewrite Hmap. apply NoDup_map_on.
  - intros x y Hx Hy. apply filter_In in Hx, Hy. apply Hinj; tauto.
  - apply NoDup_filter. exact Hnd.
Qed.

Lemma module_find_NoDup (looks : string -> bool) (ex inc : string -> bool) (w : node) :
  names_unique w = true ->
  NoDup (ModuleFinder_find_iter looks ex inc w).
Proof.
  intros Huniq.
  rewrite module_find_iter_filter. apply NoDup_filter.
  destruct w as [ | | entries]; [ constructor | constructor | ].
  simpl in Huniq. apply andb_true_iff in Huniq. destruct Huniq as [Hnames _].
  apply distinct_NoDup in Hnames.
  unfold ModuleFinder_find_iter.
  assert (Hsame : forall file : string,
             (if negb (looks (module_of file)) then []
              else if true && negb false then [module_of file] else []) =
             (if looks (module_of file) then [module_of file] else []))
    by (intros file; destruct (looks (module_of file)); reflexivity).
  rewrite (flat_map_ext _ _ Hsame).
  apply (NoDup_flat_map_option (fun file => looks (module_of file)) module_of).
  - intros x y Hx Hy Heq.
    apply glob1_In in Hx. destruct Hx as [_ [Hhx Hpx]].
    apply glob1_In in Hy. destruct Hy as [_ [Hhy Hpy]].
    apply fnmatchcase_py in Hpx. destruct Hpx as [sx ->].
    apply fnmatchcase_py in Hpy. destruct Hpy as [sy ->].
    rewrite (module_of_py _ Hhx), (module_of_py _ Hhy) in Heq.
    subst sy. reflexivity.
  - unfold glob1. repeat apply NoDup_filter. exact Hnames.
Qed.

(** X16.  On a search root in which no directory lists a name twice and
    no name contains the path separator, no finder variant returns a name
    twice; for the module finders this needs a root path without wildcard
    characters. *)
Theorem no_name_twice
        (v : Variant) (cwd : node) (where_ : list string) (w : node)
        (exclude include : list string) :
  wildcard_free_for v where_ = true ->
  node_at cwd where_ = Some w ->
  names_unique w = true -> sep_free w = true ->
  NoDup (find_at v cwd where_ exclude include).
Proof.
  intros Hplain Hnode Huniq Hfree.
  rewrite (find_at_node v cwd where_ w exclude include Hplain Hnode), find_unfold.
  destruct v as [p | | ].
  - destruct p; apply package_find_NoDup; assumption.
  - apply module_find_NoDup. exact Huniq.
  - apply module_find_NoDup. exact Huniq.
Qed.

Lemma no_name_twice_witness :
  wildcard_free_for Modules ["proj1"] = true /\
  NoDup (find_at Modules bracket_range_tree ["proj1"] [] include_all).
Proof.
  split; [ reflexivity | ].
  apply (no_name_twice Modules bracket_range_tree ["proj1"]
           (Dir [("a.py", File)]) [] include_all); reflexivity.
Defined.

(** ** Pattern sequences as sets *)

Lemma build_filter_same (ps qs : list string) (name : string) :
  (forall pat, In pat ps <-> In pat qs) ->
  _build_filter ps name = _build_filter qs name.
Proof.
  intros Hsame.
  destruct (_build_filter ps name) eqn:Hp, (_build_filter qs name) eqn:Hq;
    try reflexivity.
  - apply build_filter_true in Hp. destruct Hp as [pat [Hin Hm]].
    assert (H : _build_filter qs name = true)
      by (apply build_filter_true; exists pat; split; [ apply Hsame | ]; assumption).
    congruence.
  - apply build_filter_true in Hq. destruct Hq as [pat [Hin Hm]].
    assert (H : _build_filter ps name = true)
      by (apply build_filter_true; exists pat; split; [ apply Hsame | ]; assumption).
    congruence.
Qed.

(** X17.  For every finder variant, the result depends on the exclude and
    include sequences only through the patterns they contain: order and
    repetition of the patterns make no difference. *)
Theorem patterns_form_a_set
        (v : Variant) (w : node) (exclude exclude' include include' : list string) :
  (forall pat, In pat exclude <-> In pat exclude') ->
  (forall pat, In pat include <-> In pat include') ->
  find (finder v) w exclude include = find (finder v) w exclude' include'.
Proof.
  intros Hex Hinc. rewrite !find_unfold, !find_iter_filter.
  apply filter_ext. intros name. f_equal.
  - apply build_filter_same. exact Hinc.
  - f_equal. rewrite !build_filter_app. f_equal.
    apply build_filter_same.
    destruct exclude as [ | a exclude], exclude' as [ | a' exclude']; simpl.
    + tauto.
    + destruct (proj2 (Hex a') (or_introl eq_refl)).
    + destruct (proj1 (Hex a) (or_introl eq_refl)).
    + exact Hex.
Qed.

Lemma patterns_form_a_set_witness :
  find PackageFinder foo_tree ["tests"; "foo"; "tests"] ["*"; "f*"] =
  find PackageFinder foo_tree ["foo"; "tests"] ["f*"; "*"].
Proof.
  apply (patterns_form_a_set (Packages Marker) foo_tree); intros pat; simpl; tauto.
Defined.

(** ** Reach of the flat-layout default table *)

Lemma translate_plain (pat : string) :
  no_wildcard pat = true -> Fnmatch.translate pat = Fnmatch.lits pat.
Proof.
  intros Hlit.
  rewrite <- (append_empty_r pat) at 1.
  rewrite (translate_lits_app pat "" Hlit).
  change (Fnmatch.translate "") with (@nil Fnmatch.token).
  apply app_nil_r.
Qed.

Lemma fnmatchcase_plain_dotted (name pat : string) :
  no_wildcard pat = true ->
  Str.contains "." pat = false ->
  Str.contains "." name = true ->
  Fnmatch.fnmatchcase name pat = false.
Proof.
  intros Hlit Hpat Hname.
  destruct (Fnmatch.fnmatchcase name pat) eqn:E; [ | reflexivity ].
  unfold Fnmatch.fnmatchcase in E. rewrite (translate_plain pat Hlit) in E.
  apply matches_lits in E. congruence.
Qed.

Lemma contains_append (c : ascii) (a b : string) :
  Str.contains c (a ++ b) = Str.contains c a || Str.contains c b.
Proof.
  induction a as [ | x a IHa]; simpl.
  - reflexivity.
  - rewrite IHa. apply orb_assoc.
Qed.

Lemma concat_dot_dotted (a b : string) (l : list string) :
  Str.contains "." (String.concat "." (a :: b :: l)) = true.
Proof.
  change (String.concat "." (a :: b :: l))
    with (a ++ String "." (String.concat "." (b :: l)))%string.
  rewrite contains_append. apply orb_true_r.
Qed.

Lemma identifier_first (dir rest : string) :
  _valid_name dir = true -> Str.startswith "." (dir ++ rest) = false.
Proof.
  unfold _valid_name, Str.isidentifier.
  destruct dir as [ | c dir]; [ discriminate | ].
  intros H. apply andb_true_iff in H. destruct H as [Hc _].
  assert (Hcont : Str.is_xid_continue c = true)
    by (unfold Str.is_xid_continue; rewrite Hc; reflexivity).
  apply xid_continue_plain in Hcont. destruct Hcont as [_ Hdot].
  change (Str.startswith "." (String c dir ++ rest))
    with (Ascii.eqb "." c && true).
  rewrite Ascii.eqb_sym, Hdot. reflexivity.
Qed.

(** X18.  The plain names of the flat-layout default table ("tests",
    "docs", ...) are compared with the whole dotted name, so they reach
    top-level directories only: with the default exclude and the default
    include, the flat-layout package finder returns every accepted
    directory below the top level, whatever its base name, unless its
    dotted name starts with "_" or ends in "__pycache__". *)
Theorem flat_layout_defaults_reach_top_level_only
        (w : node) (path : list string) (d : node) :
  accepted (looks_like_package FlatLayout) w path d ->
  2 <= List.length path ->
  Str.startswith "_" (String.concat "." path) = false ->
  Str.endswith "__pycache__" (String.concat "." path) = false ->
  In (String.concat "." path) (find FlatLayoutPackageFinder w [] include_all).
Proof.
  intros Hacc Hlen Hprivate Hcache.
  assert (Hvalid := accepted_valid_names _ _ _ Hacc).
  assert (Hname : package_path path = String.concat "." path).
  { apply package_path_concat. apply Forall_forall. intros dir Hdir.
    rewrite Forall_forall in Hvalid. apply (valid_name_plain dir (Hvalid dir Hdir)). }
  apply (find_package_In FlatLayout). exists path, d.
  split; [ exact Hacc | split; [ symmetry; exact Hname | split ] ].
  - apply build_filter_true. exists "*".
    split; [ left; reflexivity | apply fnmatchcase_all ].
  - destruct path as [ | a [ | b l]]; try (simpl in Hlen; lia).
    assert (Hdotted := concat_dot_dotted a b l).
    assert (Hhidden : Str.startswith "." (String.concat "." (a :: b :: l)) = false).
    { change (String.concat "." (a :: b :: l))
        with (a ++ String "." (String.concat "." (b :: l)))%string.
      apply identifier_first. apply Forall_cons_iff in Hvalid. tauto. }
    apply not_true_is_false. intros H.
    apply build_filter_true in H. destruct H as [pat [Hpat Hm]].
    simpl in Hpat.
    repeat (destruct Hpat as [<- | Hpat];
            [ first
                [ rewrite fnmatchcase_plain_dotted in Hm
                    by (reflexivity || assumption); discriminate
                | apply fnmatchcase_pycache in Hm; congruence
                | rewrite fnmatchcase_hidden_or_private, Hhidden, Hprivate in Hm;
                  discriminate ]
            | ]).
    contradiction.
Qed.

Lemma flat_layout_defaults_reach_top_level_only_witness :
  find FlatLayoutPackageFinder nested_tests_tree [] include_all = ["pkg"; "pkg.tests"] /\
  In "pkg.tests" (find FlatLayoutPackageFinder nested_tests_tree [] include_all).
Proof.
  split; [ reflexivity | ].
  apply (flat_layout_defaults_reach_top_level_only nested_tests_tree
           ["pkg"; "tests"] (Dir [])).
  - eapply accepted_deeper; [ left; reflexivity | reflexivity | reflexivity | ].
    apply accepted_child; [ left; reflexivity | reflexivity | reflexivity ].
  - simpl. lia.
  - reflexivity.
  - reflexivity.
Defined.

(** ** What the returned names denote *)

Lemma split_dots_word (a : string) :
  Str.contains "." a = false -> split_dots a = [a].
Proof.
  induction a as [ | c a IHa]; simpl; intros H.
  - reflexivity.
  - apply orb_false_iff in H. destruct H as [Hc Ha].
    rewrite Hc, (IHa Ha). reflexivity.
Qed.

Lemma split_dots_app (a t : string) :
  Str.contains "." a = false ->
  split_dots (a ++ String "." t) = a :: split_dots t.
Proof.
  induction a as [ | c a IHa]; simpl; intros H.
  - reflexivity.
  - apply orb_false_iff in H. destruct H as [Hc Ha].
    rewrite Hc, (IHa Ha). reflexivity.
Qed.

(** Splitting at the dots gives back the dotless words that were joined. *)
Lemma split_dots_concat (path : list string) :
  Forall (fun seg => Str.contains "." seg = false) path ->
  path <> [] ->
  split_dots (String.concat "." path) = path.
Proof.
  induction 1 as [ | a path Ha Hpath IH]; intros Hne; [ contradiction | ].
  destruct path as [ | b path].
  - simpl. apply split_dots_word. exact Ha.
  - change (String.concat "." (a :: b :: path))
      with (a ++ String "." (String.concat "." (b :: path)))%string.
    rewrite (split_dots_app _ _ Ha), IH; [ reflexivity | discriminate ].
Qed.

(** X19.  Output contract.  For every finder variant, a search root whose
    names are free of the path separator and, for the module finders, whose
    path has no wildcard character: every returned name denotes something
    that exists below the root and passes the variant's test.  For a
    package finder the name split at its dots is the path of a directory
    below the root that passes the looks-like-a-package test (initializer
    file, always true, or identifier); for a module finder the root has an
    entry called [name ++ ".py"] and the name is an identifier.  The name
    matches an include pattern and no pattern of the combined exclude. *)
Theorem output_contract
        (v : Variant) (cwd : node) (where_ : list string) (w : node)
        (exclude include : list string) :
  wildcard_free_for v where_ = true ->
  node_at cwd where_ = Some w ->
  sep_free w = true ->
  Forall (fun name =>
            denotes v w name /\
            _build_filter include name = true /\
            _build_filter (ALWAYS_EXCLUDE (finder v) ++
                           effective_exclude (finder v) exclude) name = false)
         (find_at v cwd where_ exclude include).
Proof.
  intros Hplain Hnode Hfree.
  rewrite (find_at_node v cwd where_ w exclude include Hplain Hnode).
  apply Forall_forall. intros name Hin. split.
  - destruct v as [p | | ].
    + simpl finder in Hin. apply find_package_In in Hin.
      destruct Hin as [path [d [Hacc [Hname _]]]].
      assert (Hsplit : split_dots name = path).
      { rewrite Hname, (package_path_concat path (accepted_sep_free _ _ _ _ Hacc Hfree)).
        apply split_dots_concat.
        - eapply accepted_no_dots. exact Hacc.
        - inversion Hacc; discriminate. }
      exists d. rewrite Hsplit. split.
      * eapply accepted_dir_at. exact Hacc.
      * apply (accepted_last _ _ _ _ Hacc).
    + apply module_find_iter_sound in Hin.
      destruct Hin as [entries [x [Hw [Hentry [_ [Hvalid _]]]]]].
      exists entries, x. repeat split; assumption.
    + apply module_find_iter_sound in Hin.
      destruct Hin as [entries [x [Hw [Hentry [_ [Hvalid _]]]]]].
      exists entries, x. repeat split; assumption.
  - rewrite find_unfold in Hin. apply find_iter_filtered in Hin. exact Hin.
Qed.

Lemma output_contract_witness :
  wildcard_free_for (Packages Marker) [] = true /\
  sep_free example_tree = true /\
  Forall (fun name =>
            denotes (Packages Marker) example_tree name /\
            _build_filter include_all name = true /\
            _build_filter (ALWAYS_EXCLUDE PackageFinder ++ ["tests"]) name = false)
         (find_at (Packages Marker) example_tree [] ["tests"] include_all).
Proof.
  split; [ reflexivity | split; [ reflexivity | ] ].
  apply (output_contract (Packages Marker) example_tree [] example_tree
           ["tests"] include_all); reflexivity.
Defined.

(** X20.  Whatever the path of the search root, wildcard characters or
    not, every name a module finder returns is an identifier, matches an
    include pattern and matches no pattern of the combined exclude; and it
    is the stem of a name ending in ".py" that [glob] found. *)
Theorem module_names_pass_the_tests
        (flat : bool) (cwd : node) (where_ : list string)
        (exclude include : list string) :
  Forall (fun name =>
            _valid_name name = true /\
            retained (module_finder flat) exclude include name = true /\
            exists dir,
              In (dir ++ [(name ++ ".py")%string]) (glob cwd (where_ ++ ["*.py"])))
         (find_at (module_variant flat) cwd where_ exclude include).
Proof.
  apply Forall_forall. intros name Hin.
  assert (H : In name
                (ModuleFinder_find_iter_at
                   _valid_name
                   (_build_filter (ALWAYS_EXCLUDE (module_finder flat) ++
                                   effective_exclude (module_finder flat) exclude))
                   (_build_filter include) cwd where_))
    by (destruct flat; exact Hin).
  clear Hin. unfold ModuleFinder_find_iter_at in H.
  apply in_flat_map in H. destruct H as [file [Hfile Hin]].
  cbv zeta in Hin.
  destruct (_valid_name (module_of (last file EmptyString))) eqn:Hvalid;
    destruct (_build_filter include (module_of (last file EmptyString))) eqn:Hinc;
    destruct (_build_filter
                (ALWAYS_EXCLUDE (module_finder flat) ++
                 effective_exclude (module_finder flat) exclude)
                (module_of (last file EmptyString))) eqn:Hexc;
    simpl in Hin; try contradiction.
  destruct Hin as [Hin | []]. subst name.
  split; [ exact Hvalid | split ].
  - unfold retained. rewrite Hinc, Hexc. reflexivity.
  - revert Hfile Hvalid. clear.
    unfold glob. rewrite rev_app_distr.
    change (rev ["*.py"] ++ rev where_) with ("*.py" :: rev where_).
    cbn [_iglob].
    change (existsb has_magic ("*.py" :: rev where_))
      with (has_magic "*.py" || existsb has_magic (rev where_)).
    change (has_magic "*.py") with true. cbn [orb negb].
    assert (Hstem : forall dirname fname,
               In fname (_glob1 cwd dirname "*.py" false) ->
               _valid_name (module_of fname) = true ->
               fname = (module_of fname ++ ".py")%string).
    { intros dirname fname Hf Hv. unfold _glob1 in Hf.
      apply filter_In in Hf. destruct Hf as [Hf Hpy].
      change (_ishidden "*.py") with false in Hf. cbn iota in Hf.
      apply filter_In in Hf. destruct Hf as [_ Hhid].
      apply negb_true_iff in Hhid.
      apply fnmatchcase_py in Hpy. destruct Hpy as [stem ->].
      rewrite (module_of_py _ Hhid). reflexivity. }
    destruct (rev where_) as [ | s l].
    + intros Hfile Hvalid. apply in_map_iff in Hfile.
      destruct Hfile as [fname [<- Hf]]. simpl in Hvalid |- *.
      exists []. simpl. rewrite <- (Hstem [] fname Hf Hvalid).
      apply (in_map (fun name : string => [name])). exact Hf.
    + intros Hfile Hvalid. apply in_flat_map in Hfile.
      destruct Hfile as [d [Hd Hfile]].
      apply in_map_iff in Hfile. destruct Hfile as [fname [<- Hf]].
      rewrite last_last in Hvalid |- *.
      exists d. rewrite <- (Hstem d fname Hf Hvalid).
      apply in_flat_map. exists d. split; [ exact Hd | ].
      apply (in_map (fun name : string => d ++ [name])). exact Hf.
Qed.
